(** * The EEM-scan reset callback (sgmdata/plots/callbacks/eemscan/reset_2.x.x.js)

    The callback is the body of a JavaScript function whose free variables
    [xrf], [xas], [sel], [fluo], [det] and [alter] are bound by the host to
    live objects.  It is embedded here over a small object store: every
    JavaScript object is a heap cell holding a property map, arrays carry
    their elements, and a signal object is something whose [emit] method
    can be called.  Property reads and writes, array literals and [emit]
    are the primitives of a state-and-exception monad; [reset] is the
    source text, statement by statement, in that monad. *)

From stdpp Require Import base option list gmap sets strings fin_maps.
From Stdlib Require Import ZArith.

Local Open Scope string_scope.
Local Open Scope list_scope.

(** ** Values and objects *)

Definition loc := positive.
Bind Scope positive_scope with loc.

Inductive value :=
| VUndefined
| VNull
| VBool (b : bool)
| VNum (n : Z)
| VStr (s : string)
| VRef (l : loc).

#[global] Instance value_eq_dec : EqDecision value.
Proof. solve_decision. Defined.

(** What kind of object a heap cell is: a plain object, an array with its
    elements, or a signal (an object with a callable [emit]). *)
Inductive kind :=
| KObject
| KArray (elems : list value)
| KSignal.

#[global] Instance kind_eq_dec : EqDecision kind.
Proof. solve_decision. Defined.

Record obj := Obj { kind_of : kind; props : gmap string value }.

(** A notification: the signal whose [emit] ran, and the heap its
    observers saw at that moment. *)
Record event := Event { ev_signal : value; ev_heap : gmap loc obj }.

Record store := Store { st_heap : gmap loc obj; st_trace : list event }.

(** The callback is compiled as a function body; whether the host prepends
    a strict-mode directive decides what a property write on a primitive
    does, so the mode is a parameter of the semantics. *)
Inductive mode := Sloppy | Strict.

(** ** The monad: state threaded through, exceptions keep the state *)

Inductive error := TypeError.

Inductive outcome (A : Type) :=
| Return (a : A) (s : store)
| Throw (e : error) (s : store).
Arguments Return {A} a s.
Arguments Throw {A} e s.

Definition js (A : Type) := store -> outcome A.


Definition bind {A B} (c : js A) (f : A -> js B) : js B :=
  fun s => match c s with
           | Return a s' => f a s'
           | Throw e s' => Throw e s'
           end.

Notation "'let!' x := c 'in' k" := (bind c (fun x => k))
  (at level 10, x name, c at level 100, k at level 200).
Notation "c ;;; k" := (bind c (fun _ => k))
  (at level 100, k at level 200, right associativity).

(** ** Pure heap operations *)

Definition heap_write (l : loc) (k : string) (v : value)
    (h : gmap loc obj) : gmap loc obj :=
  base.alter (fun o => Obj (kind_of o) (<[k := v]> (props o))) l h.

Definition heap_alloc (a : loc) (elems : list value)
    (h : gmap loc obj) : gmap loc obj :=
  <[a := Obj (KArray elems) ∅]> h.

(** [field h l k] is what reading [l[k]] yields: the stored value, or
    [undefined] for an absent key. *)
Definition field (h : gmap loc obj) (l : loc) (k : string) : value :=
  match h !! l with
  | Some o => default VUndefined (props o !! k)
  | None => VUndefined
  end.

Definition kindof (h : gmap loc obj) (l : loc) : option kind :=
  kind_of <$> h !! l.

(** ** Primitives *)

(** [base[k]] as an expression.  Reading through [undefined] or [null]
    throws; a primitive has none of the keys this callback reads. *)
Definition get_prop (base : value) (k : string) : js value :=
  fun s =>
    match base with
    | VRef l =>
        match st_heap s !! l with
        | Some _ => Return (field (st_heap s) l k) s
        | None => Throw TypeError s
        end
    | VUndefined | VNull => Throw TypeError s
    | VBool _ | VNum _ | VStr _ => Return VUndefined s
    end.

(** [base[k] = v].  Writing through [undefined] or [null] throws; writing
    on a primitive throws in strict mode and is dropped otherwise. *)
Definition set_prop (m : mode) (base : value) (k : string) (v : value)
    : js unit :=
  fun s =>
    match base with
    | VRef l =>
        match st_heap s !! l with
        | Some _ => Return tt (Store (heap_write l k v (st_heap s)) (st_trace s))
        | None => Throw TypeError s
        end
    | VUndefined | VNull => Throw TypeError s
    | VBool _ | VNum _ | VStr _ =>
        match m with
        | Strict => Throw TypeError s
        | Sloppy => Return tt s
        end
    end.

(** An array literal allocates a fresh array object. *)
Definition new_array (elems : list value) : js value :=
  fun s =>
    let a := fresh (dom (st_heap s)) in
    Return (VRef a) (Store (heap_alloc a elems (st_heap s)) (st_trace s)).

(** [sig.emit()]: only a signal has a callable [emit]; the call is logged
    together with the heap the observers are run on. *)
Definition call_emit (sig : value) : js unit :=
  fun s =>
    match sig with
    | VRef c =>
        match kindof (st_heap s) c with
        | Some KSignal =>
            Return tt (Store (st_heap s)
                             (st_trace s ++ [Event sig (st_heap s)]))
        | _ => Throw TypeError s
        end
    | _ => Throw TypeError s
    end.

(** ** The callback *)

(** The six names the host binds for the callback. *)
Record args := Args {
  xrf : value; xas : value; sel : value; fluo : value;
  det : value; alter : value
}.

Definition reset (m : mode) (g : args) : js unit :=
  let! d2 := get_prop (xrf g) "data" in
  let! d3 := get_prop (xas g) "data" in
  let! rect := get_prop (sel g) "data" in
  let! peak := get_prop (fluo g) "data" in
  (let! a := new_array [] in set_prop m rect "x" a) ;;;
  (let! a := new_array [] in set_prop m rect "y" a) ;;;
  (let! a := new_array [] in set_prop m rect "width" a) ;;;
  (let! a := new_array [] in set_prop m rect "height" a) ;;;
  (let! v := get_prop d2 "proj_x_tot" in set_prop m d2 "proj_x" v) ;;;
  (let! v := get_prop d2 "emission_tot" in set_prop m d2 "emission" v) ;;;
  (let! v := get_prop d3 "en_tot" in set_prop m d3 "en" v) ;;;
  (let! v := get_prop d3 "proj_y_tot" in set_prop m d3 "proj_y" v) ;;;
  (let! a := new_array [] in set_prop m peak "x" a) ;;;
  (let! a := new_array [] in set_prop m peak "y" a) ;;;
  (let! a := new_array [] in set_prop m peak "width" a) ;;;
  (let! a := new_array [] in set_prop m peak "height" a) ;;;
  (let! c := get_prop (fluo g) "change" in call_emit c) ;;;
  (let! c := get_prop (sel g) "change" in call_emit c) ;;;
  (let! c := get_prop (xas g) "change" in call_emit c) ;;;
  (let! c := get_prop (xrf g) "change" in call_emit c) ;;;
  (let! a := new_array [VNum 0] in set_prop m (det g) "active" a) ;;;
  set_prop m (alter g) "active" (VNum 2).

(** ** Reading the store from outside *)

(** Property read on a value, total: [undefined] where a read would find
    nothing. *)
Definition vfield (h : gmap loc obj) (v : value) (k : string) : value :=
  match v with
  | VRef l => field h l k
  | _ => VUndefined
  end.

(** What an observer sees of a value: an array is seen through its
    elements (two arrays with the same elements look the same), anything
    else is the value itself. *)
Inductive snapshot :=
| Prim (v : value)
| Elems (es : list value).

#[global] Instance snapshot_eq_dec : EqDecision snapshot.
Proof. solve_decision. Defined.

Definition snap (h : gmap loc obj) (v : value) : snapshot :=
  match v with
  | VRef l =>
      match kindof h l with
      | Some (KArray es) => Elems es
      | _ => Prim v
      end
  | _ => Prim v
  end.

Definition vlook (h : gmap loc obj) (v : value) (k : string) : snapshot :=
  snap h (vfield h v k).

(** The six parties of the callback.  A source is reached through its
    [data] object, a widget is written directly. *)
Inductive component := Xrf | Xas | Sel | Fluo | Det | Alter.

#[global] Instance component_eq_dec : EqDecision component.
Proof. solve_decision. Defined.

Definition sources : list component := [Xrf; Xas; Sel; Fluo].
Definition widgets : list component := [Det; Alter].
Definition components : list component := sources ++ widgets.

Definition handle (g : args) (c : component) : value :=
  match c with
  | Xrf => xrf g | Xas => xas g | Sel => sel g | Fluo => fluo g
  | Det => det g | Alter => alter g
  end.

Definition target (h : gmap loc obj) (g : args) (c : component) : value :=
  match c with
  | Det | Alter => handle g c
  | _ => vfield h (handle g c) "data"
  end.

Definition signal (h : gmap loc obj) (g : args) (c : component) : value :=
  vfield h (handle g c) "change".

Definition observe (h : gmap loc obj) (g : args) (c : component)
    (k : string) : snapshot :=
  vlook h (target h g c) k.

(** ** Well-formed stores *)

Definition is_object (h : gmap loc obj) (v : value) : Prop :=
  match v with
  | VRef l => is_Some (h !! l)
  | _ => False
  end.

Definition is_signal (h : gmap loc obj) (v : value) : Prop :=
  match v with
  | VRef l => kindof h l = Some KSignal
  | _ => False
  end.

(** A value is fine in a heap when it is not a dangling reference. *)
Definition val_ok (h : gmap loc obj) (v : value) : Prop :=
  match v with
  | VRef l => is_Some (h !! l)
  | _ => True
  end.

Definition elems_of (o : obj) : list value :=
  match kind_of o with
  | KArray es => es
  | _ => []
  end.

#[global] Instance is_object_dec h v : Decision (is_object h v).
Proof. destruct v; simpl; apply _. Defined.

#[global] Instance is_signal_dec h v : Decision (is_signal h v).
Proof. destruct v; simpl; apply _. Defined.

#[global] Instance val_ok_dec h v : Decision (val_ok h v).
Proof. destruct v; simpl; apply _. Defined.

(** No object holds a dangling reference, in a property or as an array
    element. *)
Definition closed (h : gmap loc obj) : Prop :=
  map_Forall (fun _ o =>
    map_Forall (fun _ v => val_ok h v) (props o) ∧
    Forall (val_ok h) (elems_of o)) h.

(** The host has bound the six names as the callback expects: the four
    sources have a [data] object and a [change] signal, the two widgets
    are objects, and the heap has no dangling reference. *)
Definition well_formed (h : gmap loc obj) (g : args) : Prop :=
  closed h ∧
  Forall (fun c => is_object h (target h g c)) components ∧
  Forall (fun c => is_signal h (signal h g c)) sources.

(** The widgets are objects of their own, not the data of a source. *)
Definition widgets_apart (h : gmap loc obj) (g : args) : Prop :=
  Forall (fun c => target h g c ≠ det g ∧ target h g c ≠ alter g) sources.

(** Every party has a change signal of its own. *)
Definition own_signals (h : gmap loc obj) (g : args) : Prop :=
  NoDup (map (signal h g) components).

(** ** What a run leaves behind

    The assignments of the callback as heap transformers on values: a
    write through something that is not an object leaves the heap
    alone. *)

Definition vwrite (v : value) (k : string) (x : value)
    (h : gmap loc obj) : gmap loc obj :=
  match v with
  | VRef l => heap_write l k x h
  | _ => h
  end.

(** [v[k] = [es...]] *)
Definition vfill (v : value) (k : string) (es : list value)
    (h : gmap loc obj) : gmap loc obj :=
  let a := fresh (dom h) in
  vwrite v k (VRef a) (heap_alloc a es h).

(** [v[cur] = v[tot]] *)
Definition vrestore (v : value) (cur tot : string)
    (h : gmap loc obj) : gmap loc obj :=
  vwrite v cur (vfield h v tot) h.

(** The three shapes of assignment in the callback. *)
Inductive stmt :=
| Fill (v : value) (k : string) (es : list value)
| Copy (v : value) (cur tot : string)
| Put (v : value) (k : string) (x : value).

Definition exec (st : stmt) (h : gmap loc obj) : gmap loc obj :=
  match st with
  | Fill v k es => vfill v k es h
  | Copy v cur tot => vrestore v cur tot h
  | Put v k x => vwrite v k x h
  end.

Fixpoint exec_all (sts : list stmt) (h : gmap loc obj) : gmap loc obj :=
  match sts with
  | [] => h
  | st :: sts => exec_all sts (exec st h)
  end.

Definition receiver (st : stmt) : value :=
  match st with
  | Fill v _ _ | Copy v _ _ | Put v _ _ => v
  end.

Definition key (st : stmt) : string :=
  match st with
  | Fill _ k _ | Put _ k _ => k
  | Copy _ cur _ => cur
  end.

(** The literals of an assignment hold no dangling reference. *)
Definition literal_ok (h : gmap loc obj) (st : stmt) : Prop :=
  match st with
  | Fill _ _ es => Forall (val_ok h) es
  | Put _ _ x => val_ok h x
  | Copy _ _ _ => True
  end.

(** The assignments before the notifications (lines 6 to 17 of the
    source), on the data objects read at entry. *)
Definition assignments (h : gmap loc obj) (g : args) : list stmt :=
  let d2 := target h g Xrf in
  let d3 := target h g Xas in
  let rect := target h g Sel in
  let peak := target h g Fluo in
  [ Fill rect "x" [];
    Fill rect "y" [];
    Fill rect "width" [];
    Fill rect "height" [];
    Copy d2 "proj_x" "proj_x_tot";
    Copy d2 "emission" "emission_tot";
    Copy d3 "en" "en_tot";
    Copy d3 "proj_y" "proj_y_tot";
    Fill peak "x" [];
    Fill peak "y" [];
    Fill peak "width" [];
    Fill peak "height" [] ].

(** The assignments after the notifications (lines 23 and 24). *)
Definition widget_assignments (g : args) : list stmt :=
  [ Fill (det g) "active" [VNum 0];
    Put (alter g) "active" (VNum 2) ].

Definition statements (h : gmap loc obj) (g : args) : list stmt :=
  assignments h g ++ widget_assignments g.

(** The heap when the first notification fires. *)
Definition mutated (h : gmap loc obj) (g : args) : gmap loc obj :=
  exec_all (assignments h g) h.

(** The heap when the callback returns. *)
Definition finished (h : gmap loc obj) (g : args) : gmap loc obj :=
  exec_all (widget_assignments g) (mutated h g).

(** The notifications of one run, in order. *)
Definition emitted (h : gmap loc obj) (g : args) : list event :=
  map (fun c => Event (signal h g c) (mutated h g)) [Fluo; Sel; Xas; Xrf].

(** What an observer reads at [u[k]] after a list of assignments, given
    latest first, were run from [h]: the last assignment to [u[k]]
    decides, a restoring one passing the question on to the baseline
    key. *)
Fixpoint seen (rsts : list stmt) (h : gmap loc obj) (u : value)
    (k : string) : snapshot :=
  match rsts with
  | [] => vlook h u k
  | st :: rest =>
      if String.eqb (key st) k then
        if decide (receiver st = u) then
          match st with
          | Fill _ _ es => Elems es
          | Put _ _ x => snap h x
          | Copy _ _ tot => seen rest h u tot
          end
        else seen rest h u k
      else seen rest h u k
  end.

(** The value held at [u[k]] after the assignments, when it is not a
    fresh array. *)
Fixpoint held (rsts : list stmt) (h : gmap loc obj) (u : value)
    (k : string) : option value :=
  match rsts with
  | [] => Some (vfield h u k)
  | st :: rest =>
      if String.eqb (key st) k then
        if decide (receiver st = u) then
          match st with
          | Fill _ _ _ => None
          | Put _ _ x => Some x
          | Copy _ _ tot => held rest h u tot
          end
        else held rest h u k
      else held rest h u k
  end.

(** The keys the callback assigns: on the data of the sources, and on
    the widgets. *)
Definition data_keys : list string :=
  ["x"; "y"; "width"; "height"; "proj_x"; "emission"; "en"; "proj_y"].

Definition written_keys : list string := data_keys ++ ["active"].

Definition overlay_keys : list string := ["x"; "y"; "width"; "height"].

(** The restoring assignments: source, current field, baseline field. *)
Definition restores : list (component * string * string) :=
  [(Xrf, "proj_x", "proj_x_tot"); (Xrf, "emission", "emission_tot");
   (Xas, "en", "en_tot"); (Xas, "proj_y", "proj_y_tot")].

(** ** The vocabulary of the properties *)

(** After a run that started in [h0], field [cur] of source [c] holds the
    very value of field [tot], hence the same elements, and these are
    the elements [tot] had at entry. *)
Definition restored (h0 h' : gmap loc obj) (g : args) (c : component)
    (cur tot : string) : Prop :=
  vfield h' (target h' g c) cur = vfield h' (target h' g c) tot ∧
  observe h' g c cur = observe h' g c tot ∧
  observe h' g c cur = observe h0 g c tot.

(** Field [tot] of source [c] is what it was at entry, as a value and
    element by element. *)
Definition untouched (h0 h' : gmap loc obj) (g : args) (c : component)
    (k : string) : Prop :=
  vfield h' (target h' g c) k = vfield h0 (target h0 g c) k ∧
  observe h' g c k = observe h0 g c k.

(** The four fields of an overlay are empty arrays. *)
Definition cleared (h : gmap loc obj) (g : args) (c : component) : Prop :=
  observe h g c "x" = Elems [] ∧ observe h g c "y" = Elems [] ∧
  observe h g c "width" = Elems [] ∧ observe h g c "height" = Elems [].

(** How many of the events are notifications on the change signal of
    [c]. *)
Definition received (h : gmap loc obj) (g : args) (c : component)
    (evs : list event) : nat :=
  length (filter (fun e => ev_signal e = signal h g c) evs).

(** The parties whose change signal a signal object is, and a trace read
    as the parties notified. *)
Definition parties (h : gmap loc obj) (g : args) (sig : value)
    : list component :=
  filter (fun c => signal h g c = sig) components.

Definition notified (h : gmap loc obj) (g : args) (evs : list event)
    : list (list component) :=
  map (fun e => parties h g (ev_signal e)) evs.



#[global] Instance closed_dec h : Decision (closed h).
Proof. unfold closed. apply _. Defined.

#[global] Instance well_formed_dec h g : Decision (well_formed h g).
Proof. unfold well_formed. apply _. Defined.

#[global] Instance widgets_apart_dec h g : Decision (widgets_apart h g).
Proof. unfold widgets_apart. apply _. Defined.

#[global] Instance own_signals_dec h g : Decision (own_signals h g).
Proof. unfold own_signals. apply _. Defined.

(** ** A dashboard session to run the callback on

    Objects 1-4 are the sources [xrf], [xas], [sel], [fluo], 5 and 6 the
    widgets [det] and [alter], 11-14 the data of the sources, 21-26 the
    change signals, 31 onwards the arrays. *)

Definition model (d c : loc) : obj :=
  Obj KObject {[ "data" := VRef d; "change" := VRef c ]}.

Definition widget (c : loc) (active : value) : obj :=
  Obj KObject {[ "active" := active; "change" := VRef c ]}.

Definition numbers (ns : list Z) : obj := Obj (KArray (VNum <$> ns)) ∅.
Arguments numbers ns%_Z.

Definition demo_heap : gmap loc obj :=
  list_to_map
    [ (1%positive, model 11 21); (2%positive, model 12 22);
      (3%positive, model 13 23); (4%positive, model 14 24);
      (5%positive, widget 25 (VRef 47)); (6%positive, widget 26 (VNum 0));
      (11%positive, Obj KObject
         {[ "proj_x" := VRef 31; "emission" := VRef 32;
            "proj_x_tot" := VRef 33; "emission_tot" := VRef 34 ]});
      (12%positive, Obj KObject
         {[ "en" := VRef 35; "proj_y" := VRef 36;
            "en_tot" := VRef 37; "proj_y_tot" := VRef 38 ]});
      (13%positive, Obj KObject
         {[ "x" := VRef 39; "y" := VRef 40;
            "width" := VRef 41; "height" := VRef 42 ]});
      (14%positive, Obj KObject
         {[ "x" := VRef 43; "y" := VRef 44;
            "width" := VRef 45; "height" := VRef 46 ]});
      (21%positive, Obj KSignal ∅); (22%positive, Obj KSignal ∅);
      (23%positive, Obj KSignal ∅); (24%positive, Obj KSignal ∅);
      (25%positive, Obj KSignal ∅); (26%positive, Obj KSignal ∅);
      (31%positive, numbers [1; 2]); (32%positive, numbers [3; 4]);
      (33%positive, numbers [0; 0; 0]); (34%positive, numbers [9; 9; 9]);
      (35%positive, numbers [5]); (36%positive, numbers [6]);
      (37%positive, numbers [7; 7]); (38%positive, numbers [8; 8]);
      (39%positive, numbers [1]); (40%positive, numbers [2]);
      (41%positive, numbers [3]); (42%positive, numbers [4]);
      (43%positive, numbers [1]); (44%positive, numbers [2]);
      (45%positive, numbers [3]); (46%positive, numbers [4]);
      (47%positive, numbers [1; 3]) ]%Z.

Definition demo_args : args :=
  Args (VRef 1) (VRef 2) (VRef 3) (VRef 4) (VRef 5) (VRef 6).

Definition demo_store : store := Store demo_heap [].



(** ** Any run, failed or not *)

(** The store an outcome leaves, returned or thrown. *)
Definition final {A} (o : outcome A) : store :=
  match o with
  | Return _ s => s
  | Throw _ s => s
  end.

Definition nullish (v : value) : Prop := v = VUndefined ∨ v = VNull.

#[global] Instance nullish_dec v : Decision (nullish v).
Proof. unfold nullish. apply _. Defined.

(** Every object of [h] is in [h'] with its kind, an array with its
    elements, and with every property the callback has no assignment
    for. *)
Definition undisturbed (h h' : gmap loc obj) : Prop :=
  forall l, is_Some (h !! l) ->
    kindof h' l = kindof h l ∧
    forall k, k ∉ written_keys -> field h' l k = field h l k.

(** A computation whose every outcome leaves the heap undisturbed. *)
Definition gentle {A} (c : js A) : Prop :=
  forall s, undisturbed (st_heap s) (st_heap (final (c s))).



(** The sources are bound as expected; nothing is asked of the
    widgets. *)
Definition sources_bound (h : gmap loc obj) (g : args) : Prop :=
  closed h ∧
  Forall (fun c => is_object h (target h g c)) sources ∧
  Forall (fun c => is_signal h (signal h g c)) sources.

#[global] Instance sources_bound_dec h g : Decision (sources_bound h g).
Proof. unfold sources_bound. apply _. Defined.


(** The first four assignments, those of the selection overlay. *)
Definition selection_assignments (h : gmap loc obj) (g : args)
    : list stmt :=
  take 4 (assignments h g).

(** The demo session with a name left unbound, and with an xrf source
    that has no [data]. *)
Definition demo_args_no_fluo : args :=
  Args (VRef 1) (VRef 2) (VRef 3) VUndefined (VRef 5) (VRef 6).

Definition demo_args_no_det : args :=
  Args (VRef 1) (VRef 2) (VRef 3) (VRef 4) VUndefined (VRef 6).

Definition demo_heap_no_data : gmap loc obj :=
  <[1%positive := Obj KObject {[ "change" := VRef 21 ]}]> demo_heap.

(** The heap when the assignment on line 23 has built its array and
    finds no detector widget to write to. *)
Definition stranded (h : gmap loc obj) (g : args) : gmap loc obj :=
  heap_alloc (fresh (dom (mutated h g))) [VNum 0] (mutated h g).

(** The demo session without the baseline [proj_x_tot], and with one
    widget bound to both [det] and [alter]. *)
Definition demo_heap_no_baseline : gmap loc obj :=
  <[11%positive := Obj KObject
      {[ "proj_x" := VRef 31; "emission" := VRef 32;
         "emission_tot" := VRef 34 ]}]> demo_heap.

Definition demo_args_one_widget : args :=
  Args (VRef 1) (VRef 2) (VRef 3) (VRef 4) (VRef 5) (VRef 5).

(** The demo session with the toggle left unbound, and with a selection
    source that has no [data]. *)
Definition demo_args_no_alter : args :=
  Args (VRef 1) (VRef 2) (VRef 3) (VRef 4) (VRef 5) VNull.

Definition demo_heap_no_selection : gmap loc obj :=
  <[3%positive := Obj KObject {[ "change" := VRef 23 ]}]> demo_heap.

(** ** The arrays a run creates *)




(** The [data] objects of the sources are bound; nothing is asked of
    the change signals or the widgets. *)
Definition data_bound (h : gmap loc obj) (g : args) : Prop :=
  closed h ∧ Forall (fun c => is_object h (target h g c)) sources.

#[global] Instance data_bound_dec h g : Decision (data_bound h g).
Proof. unfold data_bound. apply _. Defined.

(** The demo session with a selection source that has no change
    signal. *)
Definition demo_heap_no_signal : gmap loc obj :=
  <[3%positive := Obj KObject {[ "data" := VRef 13 ]}]> demo_heap.

(** The data of the sources in [he] is reset with respect to the heap
    [h0] at entry: both overlays are emptied and the four current fields
    hold their baselines. *)
Definition fully_reset (h0 he : gmap loc obj) (g : args) : Prop :=
  cleared he g Sel ∧ cleared he g Fluo ∧
  restored h0 he g Xrf "proj_x" "proj_x_tot" ∧
  restored h0 he g Xrf "emission" "emission_tot" ∧
  restored h0 he g Xas "en" "en_tot" ∧
  restored h0 he g Xas "proj_y" "proj_y_tot".

(** ** The widgets as models of the host *)

(** Which properties of which objects the host declares with a setter. *)
Definition host := loc -> string -> bool.

Definition reactive (H : host) (v : value) (k : string) : bool :=
  match v with
  | VRef l => H l k
  | _ => false
  end.

(** The host without models: every property is a plain one. *)
Definition plain : host := fun _ _ => false.

(** Modelled from the spec: the host framework's reactive data model,
    with its implicit change-emit mechanism, is not under src/.
    [base[k] = v] where [k] may be a property a host model declares:
    the setter compares the value held with the new one as an observer
    sees them (arrays by their elements); when they differ it stores
    the new value and emits the model's own [change] signal, and when
    they look the same it stores nothing and notifies nobody.  On any
    other property the assignment is the plain write. *)
Definition assign (H : host) (m : mode) (base : value) (k : string)
    (v : value) : js unit :=
  if reactive H base k then
    let! old := get_prop base k in
    fun s =>
      if decide (snap (st_heap s) old = snap (st_heap s) v) then Return tt s
      else (set_prop m base k v ;;;
            let! c := get_prop base "change" in call_emit c) s
  else set_prop m base k v.

(** The callback with the assignment left open: [put base k v] is what
    runs for [base[k] = v].  With [set_prop] it is [reset]. *)
Definition reset_with (put : value -> string -> value -> js unit)
    (g : args) : js unit :=
  let! d2 := get_prop (xrf g) "data" in
  let! d3 := get_prop (xas g) "data" in
  let! rect := get_prop (sel g) "data" in
  let! peak := get_prop (fluo g) "data" in
  (let! a := new_array [] in put rect "x" a) ;;;
  (let! a := new_array [] in put rect "y" a) ;;;
  (let! a := new_array [] in put rect "width" a) ;;;
  (let! a := new_array [] in put rect "height" a) ;;;
  (let! v := get_prop d2 "proj_x_tot" in put d2 "proj_x" v) ;;;
  (let! v := get_prop d2 "emission_tot" in put d2 "emission" v) ;;;
  (let! v := get_prop d3 "en_tot" in put d3 "en" v) ;;;
  (let! v := get_prop d3 "proj_y_tot" in put d3 "proj_y" v) ;;;
  (let! a := new_array [] in put peak "x" a) ;;;
  (let! a := new_array [] in put peak "y" a) ;;;
  (let! a := new_array [] in put peak "width" a) ;;;
  (let! a := new_array [] in put peak "height" a) ;;;
  (let! c := get_prop (fluo g) "change" in call_emit c) ;;;
  (let! c := get_prop (sel g) "change" in call_emit c) ;;;
  (let! c := get_prop (xas g) "change" in call_emit c) ;;;
  (let! c := get_prop (xrf g) "change" in call_emit c) ;;;
  (let! a := new_array [VNum 0] in put (det g) "active" a) ;;;
  put (alter g) "active" (VNum 2).

(** What an assignment on the host leaves in the heap, and the
    notifications it raises. *)
Definition vassign (H : host) (v : value) (k : string) (x : value)
    (h : gmap loc obj) : gmap loc obj :=
  if reactive H v k && bool_decide (vlook h v k = snap h x) then h
  else vwrite v k x h.

Definition vraised (H : host) (v : value) (k : string) (x : value)
    (h : gmap loc obj) : list event :=
  if reactive H v k && negb (bool_decide (vlook h v k = snap h x))
  then [Event (vfield (vwrite v k x h) v "change") (vwrite v k x h)]
  else [].

(** The signals the host raises when widget [c] is assigned an [active]
    that looks like [x]: its own, unless [active] is a plain property or
    already looks like [x]. *)
Definition raised (H : host) (h : gmap loc obj) (g : args) (c : component)
    (x : snapshot) : list value :=
  if reactive H (handle g c) "active" &&
     negb (bool_decide (observe h g c "active" = x))
  then [signal h g c] else [].

(** The host fits the callback: the data objects of the sources are
    plain objects, which is why the callback notifies by hand, and a
    widget declared reactive in [active] has a change signal. *)
Definition host_fits (H : host) (h : gmap loc obj) (g : args) : Prop :=
  Forall (fun c =>
    Forall (fun k => reactive H (target h g c) k = false) data_keys)
    sources ∧
  Forall (fun c =>
    reactive H (handle g c) "active" = true -> is_signal h (signal h g c))
    widgets.

#[global] Instance host_fits_dec H h g : Decision (host_fits H h g).
Proof. unfold host_fits. apply _. Defined.

(** The host of the demo session: objects 5 and 6 are widget models,
    reactive in [active]. *)
Definition demo_host : host :=
  fun l k => (Pos.eqb l 5 || Pos.eqb l 6) && String.eqb k "active".

(** The heap of a run on the host after line 23 and at return, and the
    notifications the two setters raise. *)
Definition attended (H : host) (h : gmap loc obj) (g : args)
    : gmap loc obj :=
  vassign H (det g) "active" (VRef (fresh (dom (mutated h g))))
    (stranded h g).

Definition settled (H : host) (h : gmap loc obj) (g : args)
    : gmap loc obj :=
  vassign H (alter g) "active" (VNum 2) (attended H h g).

Definition host_raised (H : host) (h : gmap loc obj) (g : args)
    : list event :=
  vraised H (det g) "active" (VRef (fresh (dom (mutated h g))))
    (stranded h g) ++
  vraised H (alter g) "active" (VNum 2) (attended H h g).

(** * Lemmas *)

(** ** The monad *)

Lemma bind_run {A B} (c : js A) (f : A -> js B) s a s' :
  c s = Return a s' -> bind c f s = f a s'.
Proof. intros E. unfold bind. by rewrite E. Qed.

(** ** Heap cells under a write *)

Lemma fresh_None (h : gmap loc obj) : h !! fresh (dom h) = None.
Proof. apply not_elem_of_dom, is_fresh. Qed.

Lemma lookup_heap_write (h : gmap loc obj) l k x l' :
  is_Some (heap_write l k x h !! l') <-> is_Some (h !! l').
Proof.
  unfold heap_write. rewrite lookup_alter. case_decide; [subst|done].
  by rewrite fmap_is_Some.
Qed.

Lemma kindof_heap_write (h : gmap loc obj) l k x l' :
  kindof (heap_write l k x h) l' = kindof h l'.
Proof.
  unfold kindof, heap_write. rewrite lookup_alter.
  case_decide; [subst|done]. by destruct (h !! l').
Qed.

Lemma field_heap_write (h : gmap loc obj) l k x l' k' :
  field (heap_write l k x h) l' k' =
  if decide (l = l' ∧ k = k' ∧ is_Some (h !! l)) then x else field h l' k'.
Proof.
  unfold field, heap_write. rewrite lookup_alter.
  destruct (decide (l = l')) as [<-|Hl].
  - destruct (h !! l) as [o|] eqn:Ho; simpl.
    + destruct (decide (k = k')) as [<-|Hk].
      * rewrite lookup_insert_eq. rewrite decide_True; eauto.
      * rewrite lookup_insert_ne by done. rewrite decide_False; [done|tauto].
    + rewrite decide_False; [done|]. intros (_ & _ & []). done.
  - rewrite decide_False; [done|tauto].
Qed.

Lemma elems_heap_write (h : gmap loc obj) l k x l' o :
  heap_write l k x h !! l' = Some o ->
  exists o', h !! l' = Some o' ∧ kind_of o = kind_of o' ∧
    (forall k' v, props o !! k' = Some v -> v = x ∨ props o' !! k' = Some v).
Proof.
  unfold heap_write. rewrite lookup_alter. case_decide as E.
  - subst. destruct (h !! l') as [o'|]; [|done]. simpl. intros [= <-].
    exists o'. split_and!; [done..|]. simpl. intros k' v.
    rewrite lookup_insert. case_decide; [intros [= <-]|]; eauto.
  - intros ->. eauto.
Qed.

(** ** Values under the three heap transformers *)

Lemma val_ok_of_object h v : is_object h v -> val_ok h v.
Proof. by destruct v. Qed.

Lemma val_ok_vwrite h v k x u : val_ok h u -> val_ok (vwrite v k x h) u.
Proof. destruct v, u; simpl; try done. by rewrite lookup_heap_write. Qed.

Lemma is_object_vwrite h v k x u :
  is_object h u -> is_object (vwrite v k x h) u.
Proof. destruct v, u; simpl; try done. by rewrite lookup_heap_write. Qed.

Lemma snap_vwrite h v k x u : snap (vwrite v k x h) u = snap h u.
Proof. destruct v, u; simpl; try done. by rewrite kindof_heap_write. Qed.

Lemma is_signal_vwrite h v k x u :
  is_signal h u -> is_signal (vwrite v k x h) u.
Proof. destruct v, u; simpl; try done. by rewrite kindof_heap_write. Qed.

Lemma vfield_vwrite_key h v k x u k' :
  k' ≠ k -> vfield (vwrite v k x h) u k' = vfield h u k'.
Proof.
  intros Hk. destruct v, u; simpl; try done.
  rewrite field_heap_write, decide_False; [done|]. intros (_ & -> & _). done.
Qed.

Lemma vfield_vwrite_ne h v k x u k' :
  u ≠ v -> vfield (vwrite v k x h) u k' = vfield h u k'.
Proof.
  intros Hk. destruct v, u; simpl; try done.
  rewrite field_heap_write, decide_False; [done|]. intros (-> & _). done.
Qed.

Lemma vfield_vwrite_eq h v k x :
  is_object h v -> vfield (vwrite v k x h) v k = x.
Proof.
  destruct v; simpl; try done. intros Hl.
  by rewrite field_heap_write, decide_True.
Qed.

Lemma closed_vfield h v k : closed h -> val_ok h (vfield h v k).
Proof.
  intros Hc. destruct v as [| | | | |l]; simpl; try done. unfold field.
  destruct (h !! l) as [o|] eqn:Ho; [|done].
  destruct (props o !! k) as [x|] eqn:Hx; [|done]. simpl.
  destruct (Hc l o Ho) as [Hp _]. exact (Hp k x Hx).
Qed.

Lemma closed_vwrite h v k x :
  closed h -> val_ok h x -> closed (vwrite v k x h).
Proof.
  intros Hc Hx. destruct v as [| | | | |l]; simpl; try done.
  intros l' o Ho.
  destruct (elems_heap_write _ _ _ _ _ _ Ho) as (o' & Ho' & Hk & Hp).
  destruct (Hc l' o' Ho') as [Hc1 Hc2]. split.
  - intros k' u Hu. apply (val_ok_vwrite h (VRef l)).
    destruct (Hp k' u Hu) as [->|Hu']; [done|]. exact (Hc1 k' u Hu').
  - unfold elems_of in *. rewrite Hk.
    eapply Forall_impl; [exact Hc2|]. intros u. apply (val_ok_vwrite h (VRef l)).
Qed.

(** Allocation: everything that was there stays as it was. *)

Lemma val_ok_alloc h a es u : val_ok h u -> val_ok (heap_alloc a es h) u.
Proof.
  destruct u; simpl; try done. unfold heap_alloc.
  rewrite lookup_insert_is_Some. destruct (decide (a = l)); eauto.
Qed.

Lemma is_object_alloc h a es u :
  is_object h u -> is_object (heap_alloc a es h) u.
Proof.
  destruct u; simpl; try done. unfold heap_alloc.
  rewrite lookup_insert_is_Some. destruct (decide (a = l)); eauto.
Qed.

Lemma vfield_alloc h a es u k :
  h !! a = None -> val_ok h u -> vfield (heap_alloc a es h) u k = vfield h u k.
Proof.
  intros Ha. destruct u; simpl; try done. intros Hl.
  unfold field, heap_alloc. rewrite lookup_insert_ne; [done|].
  intros ->. rewrite Ha in Hl. by destruct Hl.
Qed.

Lemma snap_alloc h a es u :
  h !! a = None -> val_ok h u -> snap (heap_alloc a es h) u = snap h u.
Proof.
  intros Ha. destruct u; simpl; try done. intros Hl.
  unfold kindof, heap_alloc. rewrite lookup_insert_ne; [done|].
  intros ->. rewrite Ha in Hl. by destruct Hl.
Qed.

Lemma snap_alloc_new h a es : snap (heap_alloc a es h) (VRef a) = Elems es.
Proof. simpl. unfold kindof, heap_alloc. by rewrite lookup_insert_eq. Qed.

Lemma closed_alloc h a es :
  closed h -> Forall (val_ok h) es -> closed (heap_alloc a es h).
Proof.
  intros Hc Hes l o. unfold heap_alloc at 1. rewrite lookup_insert.
  case_decide.
  - intros [= <-]. split; [apply map_Forall_empty|].
    unfold elems_of; simpl. eapply Forall_impl; [exact Hes|].
    intros u. apply val_ok_alloc.
  - intros Ho. destruct (Hc l o Ho) as [Hc1 Hc2]. split.
    + intros k v Hv. apply val_ok_alloc. exact (Hc1 k v Hv).
    + eapply Forall_impl; [exact Hc2|]. intros u. apply val_ok_alloc.
Qed.

(** [vfill]: the array literal followed by the write. *)

Lemma val_ok_vfill h v k es u : val_ok h u -> val_ok (vfill v k es h) u.
Proof. intros. by apply val_ok_vwrite, val_ok_alloc. Qed.

Lemma is_object_vfill h v k es u :
  is_object h u -> is_object (vfill v k es h) u.
Proof. intros. by apply is_object_vwrite, is_object_alloc. Qed.

Lemma snap_vfill h v k es u :
  val_ok h u -> snap (vfill v k es h) u = snap h u.
Proof.
  intros. unfold vfill. rewrite snap_vwrite.
  apply snap_alloc; [apply fresh_None|done].
Qed.

Lemma is_signal_vfill h v k es u :
  is_signal h u -> is_signal (vfill v k es h) u.
Proof.
  intros Hs. unfold vfill. apply is_signal_vwrite.
  destruct u; simpl in *; try done. unfold kindof, heap_alloc in *.
  rewrite lookup_insert_ne; [done|]. intros E. rewrite <- E in Hs.
  by rewrite fresh_None in Hs.
Qed.

Lemma vfield_vfill_key h v k es u k' :
  k' ≠ k -> val_ok h u -> vfield (vfill v k es h) u k' = vfield h u k'.
Proof.
  intros. unfold vfill. rewrite vfield_vwrite_key by done.
  apply vfield_alloc; [apply fresh_None|done].
Qed.

Lemma vfield_vfill_ne h v k es u k' :
  u ≠ v -> val_ok h u -> vfield (vfill v k es h) u k' = vfield h u k'.
Proof.
  intros. unfold vfill. rewrite vfield_vwrite_ne by done.
  apply vfield_alloc; [apply fresh_None|done].
Qed.

Lemma closed_vfill h v k es :
  closed h -> Forall (val_ok h) es -> closed (vfill v k es h).
Proof.
  intros Hc Hes. unfold vfill. apply closed_vwrite.
  - by apply closed_alloc.
  - simpl. unfold heap_alloc. rewrite lookup_insert_eq. eauto.
Qed.

(** Reading back what a statement wrote, as an observer sees it. *)

Lemma vlook_vfill_eq h v k es :
  is_object h v -> vlook (vfill v k es h) v k = Elems es.
Proof.
  intros Hv. unfold vlook, vfill.
  rewrite vfield_vwrite_eq by by apply is_object_alloc.
  rewrite snap_vwrite. apply snap_alloc_new.
Qed.

Lemma vlook_vfill_key h v k es u k' :
  closed h -> k' ≠ k -> val_ok h u ->
  vlook (vfill v k es h) u k' = vlook h u k'.
Proof.
  intros Hc Hk Hu. unfold vlook. rewrite vfield_vfill_key by done.
  apply snap_vfill. by apply closed_vfield.
Qed.

Lemma vlook_vfill_ne h v k es u k' :
  closed h -> u ≠ v -> val_ok h u ->
  vlook (vfill v k es h) u k' = vlook h u k'.
Proof.
  intros Hc Hk Hu. unfold vlook. rewrite vfield_vfill_ne by done.
  apply snap_vfill. by apply closed_vfield.
Qed.

Lemma vlook_vwrite_eq h v k x :
  is_object h v -> vlook (vwrite v k x h) v k = snap h x.
Proof.
  intros Hv. unfold vlook. by rewrite vfield_vwrite_eq, snap_vwrite.
Qed.

Lemma vlook_vwrite_key h v k x u k' :
  k' ≠ k -> vlook (vwrite v k x h) u k' = vlook h u k'.
Proof.
  intros Hk. unfold vlook. by rewrite vfield_vwrite_key, snap_vwrite.
Qed.

Lemma vlook_vwrite_ne h v k x u k' :
  u ≠ v -> vlook (vwrite v k x h) u k' = vlook h u k'.
Proof.
  intros Hk. unfold vlook. by rewrite vfield_vwrite_ne, snap_vwrite.
Qed.

(** [vrestore]: a read followed by a write on the same object. *)

Lemma val_ok_vrestore h v cur tot u :
  val_ok h u -> val_ok (vrestore v cur tot h) u.
Proof. apply val_ok_vwrite. Qed.

Lemma is_object_vrestore h v cur tot u :
  is_object h u -> is_object (vrestore v cur tot h) u.
Proof. apply is_object_vwrite. Qed.

Lemma is_signal_vrestore h v cur tot u :
  is_signal h u -> is_signal (vrestore v cur tot h) u.
Proof. apply is_signal_vwrite. Qed.

Lemma snap_vrestore h v cur tot u : snap (vrestore v cur tot h) u = snap h u.
Proof. apply snap_vwrite. Qed.

Lemma closed_vrestore h v cur tot :
  closed h -> closed (vrestore v cur tot h).
Proof. intros Hc. apply closed_vwrite; [done|]. by apply closed_vfield. Qed.

Lemma vfield_vrestore_key h v cur tot u k' :
  k' ≠ cur -> vfield (vrestore v cur tot h) u k' = vfield h u k'.
Proof. apply vfield_vwrite_key. Qed.

Lemma vfield_vrestore_ne h v cur tot u k' :
  u ≠ v -> vfield (vrestore v cur tot h) u k' = vfield h u k'.
Proof. apply vfield_vwrite_ne. Qed.

Lemma vfield_vrestore_eq h v cur tot :
  is_object h v -> vfield (vrestore v cur tot h) v cur = vfield h v tot.
Proof. apply vfield_vwrite_eq. Qed.

Lemma vlook_vrestore_key h v cur tot u k' :
  k' ≠ cur -> vlook (vrestore v cur tot h) u k' = vlook h u k'.
Proof. apply vlook_vwrite_key. Qed.

Lemma vlook_vrestore_ne h v cur tot u k' :
  u ≠ v -> vlook (vrestore v cur tot h) u k' = vlook h u k'.
Proof. apply vlook_vwrite_ne. Qed.

Lemma vlook_vrestore_eq h v cur tot :
  is_object h v -> vlook (vrestore v cur tot h) v cur = vlook h v tot.
Proof. apply vlook_vwrite_eq. Qed.

Create HintDb store discriminated.
#[local] Hint Resolve val_ok_of_object closed_vfield
  val_ok_vwrite val_ok_vfill val_ok_vrestore
  is_object_vwrite is_object_vfill is_object_vrestore
  is_signal_vwrite is_signal_vfill is_signal_vrestore
  closed_vwrite closed_vfill closed_vrestore : store.

(** ** Lists of assignments *)

Lemma exec_all_app sts1 sts2 h :
  exec_all (sts1 ++ sts2) h = exec_all sts2 (exec_all sts1 h).
Proof. revert h. induction sts1 as [|st sts1 IH]; intros h; simpl; auto. Qed.

Lemma val_ok_exec st h u : val_ok h u -> val_ok (exec st h) u.
Proof. destruct st; simpl; auto with store. Qed.

Lemma is_object_exec st h u : is_object h u -> is_object (exec st h) u.
Proof. destruct st; simpl; auto with store. Qed.

Lemma is_signal_exec st h u : is_signal h u -> is_signal (exec st h) u.
Proof. destruct st; simpl; auto with store. Qed.

Lemma snap_exec st h u : val_ok h u -> snap (exec st h) u = snap h u.
Proof.
  intros. destruct st; simpl;
    [by apply snap_vfill | apply snap_vrestore | apply snap_vwrite].
Qed.

Lemma literal_ok_exec st h st' :
  literal_ok h st' -> literal_ok (exec st h) st'.
Proof.
  destruct st'; simpl; [|done|apply val_ok_exec].
  intros Hes. eapply Forall_impl; [exact Hes|]. intros u. apply val_ok_exec.
Qed.

Lemma closed_exec st h : closed h -> literal_ok h st -> closed (exec st h).
Proof. destruct st; simpl; auto with store. Qed.

Lemma vfield_exec_key st h u k :
  key st ≠ k -> val_ok h u -> vfield (exec st h) u k = vfield h u k.
Proof.
  intros Hk Hu. destruct st; simpl in *.
  - by apply vfield_vfill_key.
  - by apply vfield_vrestore_key.
  - by apply vfield_vwrite_key.
Qed.

Lemma vfield_exec_ne st h u k :
  receiver st ≠ u -> val_ok h u -> vfield (exec st h) u k = vfield h u k.
Proof.
  intros Hk Hu. destruct st; simpl in *.
  - by apply vfield_vfill_ne.
  - by apply vfield_vrestore_ne.
  - by apply vfield_vwrite_ne.
Qed.

Lemma val_ok_exec_all sts h u : val_ok h u -> val_ok (exec_all sts h) u.
Proof.
  revert h. induction sts as [|st sts IH]; intros h Hu; simpl; [done|].
  by apply IH, val_ok_exec.
Qed.

Lemma is_object_exec_all sts h u :
  is_object h u -> is_object (exec_all sts h) u.
Proof.
  revert h. induction sts as [|st sts IH]; intros h Hu; simpl; [done|].
  by apply IH, is_object_exec.
Qed.

Lemma is_signal_exec_all sts h u :
  is_signal h u -> is_signal (exec_all sts h) u.
Proof.
  revert h. induction sts as [|st sts IH]; intros h Hu; simpl; [done|].
  by apply IH, is_signal_exec.
Qed.

Lemma snap_exec_all sts h u :
  val_ok h u -> snap (exec_all sts h) u = snap h u.
Proof.
  revert h. induction sts as [|st sts IH]; intros h Hu; simpl; [done|].
  rewrite IH by by apply val_ok_exec. by apply snap_exec.
Qed.

Lemma closed_exec_all sts h :
  closed h -> Forall (literal_ok h) sts -> closed (exec_all sts h).
Proof.
  revert h. induction sts as [|st sts IH]; intros h Hc Hl; simpl; [done|].
  apply Forall_cons in Hl as [Hst Hl]. apply IH; [by apply closed_exec|].
  eapply Forall_impl; [exact Hl|]. intros st'. apply literal_ok_exec.
Qed.

(** The last assignment to [u[k]] decides what is read there. *)
Lemma vlook_exec_all sts h u k :
  closed h -> Forall (literal_ok h) sts -> is_object h u ->
  vlook (exec_all sts h) u k = seen (rev sts) h u k.
Proof.
  intros Hc Hl Hu. revert k.
  induction sts as [|st sts IH] using rev_ind; intros k; [done|].
  apply Forall_app in Hl as [Hl Hst]. apply Forall_cons in Hst as [Hst _].
  specialize (IH Hl). rewrite exec_all_app, rev_app_distr. simpl.
  pose proof (closed_exec_all sts h Hc Hl) as Hc'.
  pose proof (is_object_exec_all sts h u Hu) as Hu'.
  pose proof (val_ok_of_object _ _ Hu') as Hv'.
  destruct (String.eqb_spec (key st) k) as [<-|Hk].
  - destruct (decide (receiver st = u)) as [<-|Hr].
    + destruct st as [v k es|v cur tot|v k x]; simpl in *.
      * by apply vlook_vfill_eq.
      * rewrite vlook_vrestore_eq by done. apply IH.
      * rewrite vlook_vwrite_eq by done. by apply snap_exec_all.
    + rewrite <- IH. destruct st as [v k es|v cur tot|v k x]; simpl in *.
      * by apply vlook_vfill_ne.
      * by apply vlook_vrestore_ne.
      * by apply vlook_vwrite_ne.
  - rewrite <- IH. destruct st as [v k' es|v cur tot|v k' x]; simpl in *.
    + by apply vlook_vfill_key.
    + by apply vlook_vrestore_key.
    + by apply vlook_vwrite_key.
Qed.

Lemma vfield_exec_all sts h u k x :
  is_object h u -> held (rev sts) h u k = Some x ->
  vfield (exec_all sts h) u k = x.
Proof.
  intros Hu. revert k x.
  induction sts as [|st sts IH] using rev_ind; intros k x; simpl.
  { by intros [= <-]. }
  rewrite exec_all_app, rev_app_distr. simpl.
  pose proof (is_object_exec_all sts h u Hu) as Hu'.
  pose proof (val_ok_of_object _ _ Hu') as Hv'.
  destruct (String.eqb_spec (key st) k) as [<-|Hk].
  - destruct (decide (receiver st = u)) as [<-|Hr].
    + destruct st as [v k es|v cur tot|v k y]; simpl in *; [done| |].
      * intros Hh. rewrite vfield_vrestore_eq by done. by apply IH.
      * intros [= <-]. by apply vfield_vwrite_eq.
    + intros Hh. rewrite vfield_exec_ne by done. by apply IH.
  - intros Hh. rewrite vfield_exec_key by done. by apply IH.
Qed.

(** Assignments to other keys, or to other objects, change nothing. *)
Lemma seen_other_key rsts h u k :
  Forall (fun st => key st ≠ k) rsts -> seen rsts h u k = vlook h u k.
Proof.
  induction 1 as [|st rsts Hk _ IH]; simpl; [done|].
  by destruct (String.eqb_spec (key st) k).
Qed.

Lemma seen_other_object rsts h u k :
  Forall (fun st => receiver st ≠ u) rsts -> seen rsts h u k = vlook h u k.
Proof.
  induction 1 as [|st rsts Hk _ IH]; simpl; [done|].
  rewrite decide_False by done. by destruct (String.eqb (key st) k).
Qed.

Lemma vfield_exec_all_key sts h u k :
  Forall (fun st => key st ≠ k) sts -> val_ok h u ->
  vfield (exec_all sts h) u k = vfield h u k.
Proof.
  intros Hk. revert h. induction Hk as [|st sts Hst _ IH]; intros h Hu.
  - done.
  - simpl. rewrite IH by by apply val_ok_exec. by apply vfield_exec_key.
Qed.

Lemma vfield_exec_all_ne sts h u k :
  Forall (fun st => receiver st ≠ u) sts -> val_ok h u ->
  vfield (exec_all sts h) u k = vfield h u k.
Proof.
  intros Hk. revert h. induction Hk as [|st sts Hst _ IH]; intros h Hu.
  - done.
  - simpl. rewrite IH by by apply val_ok_exec. by apply vfield_exec_ne.
Qed.

(** ** One statement at a time *)

Lemma is_object_vfield_inv h v k : is_object h (vfield h v k) -> is_object h v.
Proof.
  destruct v; simpl; try done. unfold field.
  destruct (h !! l); [eauto|done].
Qed.

Lemma get_prop_run h t v k :
  is_object h v ->
  get_prop v k (Store h t) = Return (vfield h v k) (Store h t).
Proof. destruct v; simpl; try done. by intros [o ->]. Qed.

Lemma set_prop_run m h t v k x :
  is_object h v ->
  set_prop m v k x (Store h t) = Return tt (Store (vwrite v k x h) t).
Proof. destruct v; simpl; try done. by intros [o ->]. Qed.

Lemma fill_run m h t v k es :
  is_object h v ->
  (let! a := new_array es in set_prop m v k a) (Store h t) =
  Return tt (Store (vfill v k es h) t).
Proof.
  intros Hv. unfold bind, new_array. simpl.
  rewrite set_prop_run by by apply is_object_alloc. done.
Qed.

Lemma restore_run m h t v cur tot :
  is_object h v ->
  (let! x := get_prop v tot in set_prop m v cur x) (Store h t) =
  Return tt (Store (vrestore v cur tot h) t).
Proof.
  intros Hv. unfold bind. rewrite get_prop_run by done.
  by rewrite set_prop_run.
Qed.

Lemma call_emit_run h t c :
  is_signal h c ->
  call_emit c (Store h t) = Return tt (Store h (t ++ [Event c h])).
Proof. destruct c; simpl; try done. by intros ->. Qed.

Lemma emit_run h t v :
  is_object h v -> is_signal h (vfield h v "change") ->
  (let! c := get_prop v "change" in call_emit c) (Store h t) =
  Return tt (Store h (t ++ [Event (vfield h v "change") h])).
Proof.
  intros Hv Hc. unfold bind. rewrite get_prop_run by done.
  by rewrite call_emit_run.
Qed.

(** ** The keys the callback assigns *)

Lemma not_data_key k :
  k ∉ data_keys ->
  k ≠ "x" ∧ k ≠ "y" ∧ k ≠ "width" ∧ k ≠ "height" ∧ k ≠ "proj_x" ∧
  k ≠ "emission" ∧ k ≠ "en" ∧ k ≠ "proj_y".
Proof. unfold data_keys. rewrite !not_elem_of_cons. tauto. Qed.

Lemma not_written k : k ∉ written_keys -> (k ∉ data_keys) ∧ k ≠ "active".
Proof.
  unfold written_keys. rewrite not_elem_of_app, (not_elem_of_cons []).
  tauto.
Qed.

Lemma not_written_intro k : k ∉ data_keys -> k ≠ "active" -> k ∉ written_keys.
Proof.
  unfold written_keys. rewrite not_elem_of_app, (not_elem_of_cons []).
  intros. split_and!; [done..|]. apply not_elem_of_nil.
Qed.

Lemma data_not_data_key : "data" ∉ data_keys.
Proof.
  unfold data_keys. rewrite !not_elem_of_cons.
  split_and!; try discriminate. apply not_elem_of_nil.
Qed.

Lemma data_not_written : "data" ∉ written_keys.
Proof. by apply not_written_intro; [apply data_not_data_key|]. Qed.

Lemma change_not_written : "change" ∉ data_keys.
Proof.
  unfold data_keys. rewrite !not_elem_of_cons.
  split_and!; try discriminate. apply not_elem_of_nil.
Qed.

Lemma key_assignments h g k :
  k ∉ data_keys -> Forall (fun st => key st ≠ k) (assignments h g).
Proof.
  intros Hk%not_data_key. destruct_and!.
  unfold assignments. repeat constructor; simpl; congruence.
Qed.

Lemma key_statements h g k :
  k ∉ written_keys -> Forall (fun st => key st ≠ k) (statements h g).
Proof.
  intros [Hd Ha]%not_written. apply Forall_app. split.
  - by apply key_assignments.
  - unfold widget_assignments. repeat constructor; simpl; congruence.
Qed.

Lemma literal_ok_assignments h g : Forall (literal_ok h) (assignments h g).
Proof. unfold assignments. repeat constructor. Qed.

Lemma literal_ok_widget_assignments h g :
  Forall (literal_ok h) (widget_assignments g).
Proof. unfold widget_assignments. repeat constructor. Qed.

Lemma literal_ok_statements h g : Forall (literal_ok h) (statements h g).
Proof.
  apply Forall_app. split;
    [apply literal_ok_assignments | apply literal_ok_widget_assignments].
Qed.

Lemma mutated_assignments h g : mutated h g = exec_all (assignments h g) h.
Proof. done. Qed.

Lemma finished_widgets h g :
  finished h g = exec_all (widget_assignments g) (mutated h g).
Proof. done. Qed.

Lemma finished_statements h g : finished h g = exec_all (statements h g) h.
Proof. unfold finished, mutated, statements. by rewrite exec_all_app. Qed.

(** The two heaps spelled out as the source has them. *)
Lemma mutated_eq h g :
  mutated h g =
  vfill (vfield h (fluo g) "data") "height" []
   (vfill (vfield h (fluo g) "data") "width" []
    (vfill (vfield h (fluo g) "data") "y" []
     (vfill (vfield h (fluo g) "data") "x" []
      (vrestore (vfield h (xas g) "data") "proj_y" "proj_y_tot"
       (vrestore (vfield h (xas g) "data") "en" "en_tot"
        (vrestore (vfield h (xrf g) "data") "emission" "emission_tot"
         (vrestore (vfield h (xrf g) "data") "proj_x" "proj_x_tot"
          (vfill (vfield h (sel g) "data") "height" []
           (vfill (vfield h (sel g) "data") "width" []
            (vfill (vfield h (sel g) "data") "y" []
             (vfill (vfield h (sel g) "data") "x" [] h))))))))))).
Proof. done. Qed.

Lemma finished_eq h g :
  finished h g =
  vwrite (alter g) "active" (VNum 2)
    (vfill (det g) "active" [VNum 0] (mutated h g)).
Proof. done. Qed.

#[local] Opaque mutated finished.

(** ** The heap at notification time and at return, against the heap at
    entry *)

Lemma val_ok_mutated h g u : val_ok h u -> val_ok (mutated h g) u.
Proof. rewrite mutated_assignments. apply val_ok_exec_all. Qed.

Lemma is_object_mutated h g u : is_object h u -> is_object (mutated h g) u.
Proof. rewrite mutated_assignments. apply is_object_exec_all. Qed.

Lemma is_signal_mutated h g u : is_signal h u -> is_signal (mutated h g) u.
Proof. rewrite mutated_assignments. apply is_signal_exec_all. Qed.

Lemma closed_mutated h g : closed h -> closed (mutated h g).
Proof.
  intros. rewrite mutated_assignments.
  by apply closed_exec_all, literal_ok_assignments.
Qed.

Lemma snap_mutated h g u : val_ok h u -> snap (mutated h g) u = snap h u.
Proof. rewrite mutated_assignments. apply snap_exec_all. Qed.

Lemma vfield_mutated h g u k :
  k ∉ data_keys -> val_ok h u -> vfield (mutated h g) u k = vfield h u k.
Proof.
  intros. rewrite mutated_assignments.
  apply vfield_exec_all_key; [by apply key_assignments|done].
Qed.

Lemma is_object_finished h g u : is_object h u -> is_object (finished h g) u.
Proof. rewrite finished_statements. apply is_object_exec_all. Qed.

Lemma is_signal_finished h g u : is_signal h u -> is_signal (finished h g) u.
Proof. rewrite finished_statements. apply is_signal_exec_all. Qed.

Lemma closed_finished h g : closed h -> closed (finished h g).
Proof.
  intros. rewrite finished_statements.
  by apply closed_exec_all, literal_ok_statements.
Qed.

Lemma vfield_finished h g u k :
  k ∉ written_keys -> val_ok h u -> vfield (finished h g) u k = vfield h u k.
Proof.
  intros. rewrite finished_statements.
  apply vfield_exec_all_key; [by apply key_statements|done].
Qed.

(** ** Consequences of well-formedness *)

Ltac in_list :=
  unfold components, sources, widgets; simpl;
  rewrite ?elem_of_cons; naive_solver.

Lemma sources_all :
  Xrf ∈ sources ∧ Xas ∈ sources ∧ Sel ∈ sources ∧ Fluo ∈ sources.
Proof. split_and!; in_list. Qed.

Lemma wf_closed h g : well_formed h g -> closed h.
Proof. by intros [? _]. Qed.

Lemma wf_target h g c : well_formed h g -> is_object h (target h g c).
Proof.
  intros (_ & Ht & _). rewrite Forall_forall in Ht. apply Ht.
  destruct c; in_list.
Qed.

Lemma wf_handle h g c : well_formed h g -> is_object h (handle g c).
Proof.
  intros Hwf. pose proof (wf_target h g c Hwf) as Ht.
  destruct c; try done; by apply is_object_vfield_inv in Ht.
Qed.

Lemma wf_signal h g c :
  well_formed h g -> c ∈ sources -> is_signal h (signal h g c).
Proof. intros (_ & _ & Hs). rewrite Forall_forall in Hs. apply Hs. Qed.

(** ** The whole run *)

Lemma reset_runs m g h t :
  well_formed h g ->
  reset m g (Store h t) = Return tt (Store (finished h g) (t ++ emitted h g)).
Proof.
  intros Hwf.
  pose proof (wf_handle h g Xrf Hwf) as Hxrf.
  pose proof (wf_handle h g Xas Hwf) as Hxas.
  pose proof (wf_handle h g Sel Hwf) as Hsel.
  pose proof (wf_handle h g Fluo Hwf) as Hfluo.
  pose proof (wf_target h g Xrf Hwf) as Hd2.
  pose proof (wf_target h g Xas Hwf) as Hd3.
  pose proof (wf_target h g Sel Hwf) as Hrect.
  pose proof (wf_target h g Fluo Hwf) as Hpeak.
  pose proof (wf_target h g Det Hwf) as Hdet.
  pose proof (wf_target h g Alter Hwf) as Halter.
  simpl in *. unfold reset.
  do 4 (erewrite bind_run; [|by apply get_prop_run]).
  do 4 (erewrite bind_run; [|apply fill_run; auto 20 with store]).
  do 4 (erewrite bind_run; [|apply restore_run; auto 20 with store]).
  do 4 (erewrite bind_run; [|apply fill_run; auto 20 with store]).
  rewrite <- (mutated_eq h g).
  assert (Hsig : forall c, c ∈ sources ->
    is_object (mutated h g) (handle g c) ∧
    is_signal (mutated h g) (vfield (mutated h g) (handle g c) "change") ∧
    vfield (mutated h g) (handle g c) "change" = signal h g c).
  { intros c Hc. pose proof (wf_handle h g c Hwf) as Hh.
    assert (E : vfield (mutated h g) (handle g c) "change" = signal h g c).
    { apply vfield_mutated; [|by apply val_ok_of_object].
      apply change_not_written. }
    split_and!; [by apply is_object_mutated| |done].
    rewrite E. by apply is_signal_mutated, wf_signal. }
  assert (HD : forall c, c ∈ sources ->
    forall t', (let! c := get_prop (handle g c) "change" in call_emit c)
               (Store (mutated h g) t') =
    Return tt (Store (mutated h g)
                     (t' ++ [Event (signal h g c) (mutated h g)]))).
  { intros c Hc t'. destruct (Hsig c Hc) as (Ho & Hs & E).
    rewrite emit_run by done. by rewrite E. }
  destruct sources_all as (Sx & Sa & Ss & Sf).
  erewrite bind_run; [|exact (HD Fluo Sf _)].
  erewrite bind_run; [|exact (HD Sel Ss _)].
  erewrite bind_run; [|exact (HD Xas Sa _)].
  erewrite bind_run; [|exact (HD Xrf Sx _)].
  erewrite bind_run;
    [|apply fill_run; by apply is_object_mutated].
  rewrite set_prop_run
    by by apply is_object_vfill, is_object_mutated.
  rewrite <- finished_eq. unfold emitted. cbn [map].
  by rewrite <- !app_assoc.
Qed.

(** ** The handles after a run *)

Lemma target_mutated h g c :
  well_formed h g -> target (mutated h g) g c = target h g c.
Proof.
  intros Hwf. pose proof (wf_handle h g c Hwf).
  destruct c; simpl; try done;
    apply vfield_mutated; auto using data_not_data_key with store.
Qed.

Lemma target_finished h g c :
  well_formed h g -> target (finished h g) g c = target h g c.
Proof.
  intros Hwf. pose proof (wf_handle h g c Hwf).
  destruct c; simpl; try done;
    apply vfield_finished; auto using data_not_written with store.
Qed.

Lemma signal_finished h g c :
  well_formed h g -> signal (finished h g) g c = signal h g c.
Proof.
  intros Hwf. pose proof (wf_handle h g c Hwf). unfold signal.
  apply vfield_finished; [|by apply val_ok_of_object].
  by apply not_written_intro; [apply change_not_written|].
Qed.

(** A run leaves the store well-formed for the next one. *)
Lemma well_formed_finished h g :
  well_formed h g -> well_formed (finished h g) g.
Proof.
  intros Hwf. split_and!.
  - by apply closed_finished, wf_closed with g.
  - apply Forall_forall. intros c _. rewrite target_finished by done.
    by apply is_object_finished, wf_target.
  - apply Forall_forall. intros c Hc. rewrite signal_finished by done.
    by apply is_signal_finished, wf_signal.
Qed.

(** ** What an observer reads after a run

    For any object [u] and any key, in terms of the heap at entry.  The
    objects may coincide with one another in any way: only the key and
    the identity of the object written last matter. *)

Lemma vlook_finished h g u k :
  well_formed h g -> is_object h u ->
  vlook (finished h g) u k = seen (rev (statements h g)) h u k.
Proof.
  intros Hwf Hu. rewrite finished_statements.
  apply vlook_exec_all; [by apply wf_closed with g| |done].
  apply literal_ok_statements.
Qed.

#[local] Arguments target : simpl never.
#[local] Arguments signal : simpl never.

Lemma vlook_finished_other h g u k :
  well_formed h g -> is_object h u -> k ∉ written_keys ->
  vlook (finished h g) u k = vlook h u k.
Proof.
  intros Hwf Hu Hk. rewrite vlook_finished by done.
  by apply seen_other_key, List.Forall_rev, key_statements.
Qed.

Lemma vlook_finished_overlay h g u k :
  well_formed h g -> is_object h u -> k ∈ overlay_keys ->
  vlook (finished h g) u k =
  if decide (u = target h g Sel ∨ u = target h g Fluo)
  then Elems [] else vlook h u k.
Proof.
  intros Hwf Hu Hk. rewrite vlook_finished by done.
  unfold overlay_keys in Hk. rewrite !elem_of_cons in Hk.
  destruct Hk as [->|[->|[->|[->|Hk]]]]; [..|by apply elem_of_nil in Hk];
    cbn; repeat case_decide; try done; exfalso; intuition congruence.
Qed.

Lemma vlook_finished_current h g u c cur tot :
  well_formed h g -> is_object h u -> (c, cur, tot) ∈ restores ->
  vlook (finished h g) u cur =
  if decide (u = target h g c) then vlook h u tot else vlook h u cur.
Proof.
  intros Hwf Hu Hk. rewrite vlook_finished by done.
  unfold restores in Hk. rewrite !elem_of_cons in Hk.
  destruct Hk as [E|[E|[E|[E|E]]]];
    [injection E as -> -> ->..|by apply elem_of_nil in E];
    cbn; repeat case_decide; subst; try done; cbn; done.
Qed.

Lemma vlook_finished_active h g u :
  well_formed h g -> is_object h u ->
  vlook (finished h g) u "active" =
  if decide (u = alter g) then Prim (VNum 2)
  else if decide (u = det g) then Elems [VNum 0]
  else vlook h u "active".
Proof.
  intros Hwf Hu. rewrite vlook_finished by done.
  cbn. repeat case_decide; subst; done.
Qed.

(** ** Raw values after a run *)

Lemma vfield_finished_restored h g c cur tot :
  well_formed h g -> (c, cur, tot) ∈ restores ->
  vfield (finished h g) (target h g c) cur = vfield h (target h g c) tot.
Proof.
  intros Hwf Hk. rewrite finished_statements.
  apply vfield_exec_all; [by apply wf_target|].
  unfold restores in Hk. rewrite !elem_of_cons in Hk.
  destruct Hk as [E|[E|[E|[E|E]]]];
    [injection E as -> -> ->..|by apply elem_of_nil in E];
    cbn; by rewrite decide_True by done.
Qed.

Lemma vfield_finished_toggle h g :
  well_formed h g -> vfield (finished h g) (alter g) "active" = VNum 2.
Proof.
  intros Hwf. rewrite finished_statements.
  apply vfield_exec_all; [apply (wf_target h g Alter Hwf)|].
  cbn. by rewrite decide_True by done.
Qed.

(** The widgets are written after the last notification; an object that
    is neither widget is at return as it was then. *)
Lemma widget_assignments_apart g u :
  u ≠ det g -> u ≠ alter g ->
  Forall (fun st => receiver st ≠ u) (widget_assignments g).
Proof.
  intros. unfold widget_assignments. repeat constructor; simpl; congruence.
Qed.

Lemma vfield_finished_mutated h g u k :
  val_ok h u -> u ≠ det g -> u ≠ alter g ->
  vfield (finished h g) u k = vfield (mutated h g) u k.
Proof.
  intros Hu Hd Ha. rewrite finished_widgets.
  apply vfield_exec_all_ne; [by apply widget_assignments_apart|].
  by apply val_ok_mutated.
Qed.

Lemma vlook_finished_mutated h g u k :
  closed h -> is_object h u -> u ≠ det g -> u ≠ alter g ->
  vlook (finished h g) u k = vlook (mutated h g) u k.
Proof.
  intros Hc Hu Hd Ha. rewrite finished_widgets, vlook_exec_all.
  - by apply seen_other_object, List.Forall_rev, widget_assignments_apart.
  - by apply closed_mutated.
  - apply literal_ok_widget_assignments.
  - by apply is_object_mutated.
Qed.

(** The statements before the notifications write to the data of the
    sources only. *)
Lemma assignments_apart h g u :
  Forall (fun c => target h g c ≠ u) sources ->
  Forall (fun st => receiver st ≠ u) (assignments h g).
Proof.
  unfold sources. rewrite !Forall_cons. intros (Hx & Ha & Hs & Hf & _).
  unfold assignments. repeat constructor; simpl; congruence.
Qed.

Lemma vfield_mutated_apart h g u k :
  val_ok h u -> Forall (fun c => target h g c ≠ u) sources ->
  vfield (mutated h g) u k = vfield h u k.
Proof.
  intros Hu Hs. rewrite mutated_assignments.
  apply vfield_exec_all_ne; [by apply assignments_apart|done].
Qed.

Lemma vlook_mutated_apart h g u k :
  closed h -> val_ok h u -> Forall (fun c => target h g c ≠ u) sources ->
  vlook (mutated h g) u k = vlook h u k.
Proof.
  intros Hc Hu Hs. unfold vlook. rewrite vfield_mutated_apart by done.
  apply snap_mutated. by apply closed_vfield.
Qed.

Lemma reset_returns m g s :
  well_formed (st_heap s) g ->
  reset m g s =
  Return tt (Store (finished (st_heap s) g)
                   (st_trace s ++ emitted (st_heap s) g)).
Proof. destruct s as [h t]. apply reset_runs. Qed.

Lemma in_restores :
  (Xrf, "proj_x", "proj_x_tot") ∈ restores ∧
  (Xrf, "emission", "emission_tot") ∈ restores ∧
  (Xas, "en", "en_tot") ∈ restores ∧
  (Xas, "proj_y", "proj_y_tot") ∈ restores.
Proof. unfold restores. rewrite !elem_of_cons. naive_solver. Qed.

Lemma baseline_not_written c cur tot :
  (c, cur, tot) ∈ restores -> tot ∉ written_keys.
Proof.
  unfold restores. rewrite !elem_of_cons.
  intros [E|[E|[E|[E|E]]]];
    [injection E as -> -> ->..|by apply elem_of_nil in E];
    apply not_written_intro; try discriminate;
    unfold data_keys; rewrite !not_elem_of_cons;
    split_and!; try discriminate; apply not_elem_of_nil.
Qed.

Lemma restored_finished h g c cur tot :
  well_formed h g -> (c, cur, tot) ∈ restores ->
  restored h (finished h g) g c cur tot.
Proof.
  intros Hwf Hk. pose proof (wf_target h g c Hwf) as Hc.
  pose proof (baseline_not_written c cur tot Hk) as Hn.
  unfold restored, observe. rewrite target_finished by done.
  rewrite (vlook_finished_current h g _ c cur tot) by done.
  rewrite decide_True by done.
  rewrite vlook_finished_other by auto with store.
  rewrite (vfield_finished_restored h g c cur tot) by done.
  by rewrite vfield_finished by auto with store.
Qed.

Lemma untouched_finished h g c k :
  well_formed h g -> k ∉ written_keys -> untouched h (finished h g) g c k.
Proof.
  intros Hwf Hk. pose proof (wf_target h g c Hwf) as Hc.
  unfold untouched, observe. rewrite target_finished by done.
  rewrite vlook_finished_other by auto with store.
  by rewrite vfield_finished by auto with store.
Qed.

Lemma in_overlay_keys :
  "x" ∈ overlay_keys ∧ "y" ∈ overlay_keys ∧
  "width" ∈ overlay_keys ∧ "height" ∈ overlay_keys.
Proof. unfold overlay_keys. rewrite !elem_of_cons. naive_solver. Qed.

Lemma cleared_finished h g c :
  well_formed h g -> c = Sel ∨ c = Fluo -> cleared (finished h g) g c.
Proof.
  intros Hwf Hc. pose proof (wf_target h g c Hwf) as Ho.
  destruct in_overlay_keys as (Kx & Ky & Kw & Kh).
  assert (E : forall k, k ∈ overlay_keys ->
    observe (finished h g) g c k = Elems []).
  { intros k Hk. unfold observe. rewrite target_finished by done.
    rewrite vlook_finished_overlay by done.
    apply decide_True. destruct Hc as [->| ->]; eauto. }
  unfold cleared. by rewrite !E.
Qed.

(** ** Notifications *)

Lemma heap_emitted h g e : e ∈ emitted h g -> ev_heap e = mutated h g.
Proof.
  unfold emitted. simpl. rewrite !elem_of_cons.
  intros [->|[->|[->|[->|He]]]]; try done. by apply elem_of_nil in He.
Qed.

Lemma own_signals_ne h g c c' :
  own_signals h g -> c ≠ c' -> signal h g c ≠ signal h g c'.
Proof.
  unfold own_signals, components, sources, widgets. simpl.
  rewrite !NoDup_cons, !not_elem_of_cons. intros ? Hne.
  destruct_and!. destruct c, c'; congruence.
Qed.

Ltac clash Hne :=
  match goal with
  | H : signal ?h ?g ?a = signal ?h ?g ?b |- _ =>
      solve [exfalso; apply (Hne a b); [discriminate | exact H]]
  end.

Lemma parties_own h g c :
  own_signals h g -> parties h g (signal h g c) = [c].
Proof.
  intros Ho. pose proof (fun a b => own_signals_ne h g a b Ho) as Hne.
  unfold parties, components, sources, widgets. cbn [app].
  rewrite !filter_cons, filter_nil.
  destruct c; repeat case_decide; try done; clash Hne.
Qed.

Lemma notified_emitted h g :
  own_signals h g ->
  notified h g (emitted h g) = [[Fluo]; [Sel]; [Xas]; [Xrf]].
Proof.
  intros Ho. unfold notified, emitted. cbn [map ev_signal].
  by rewrite !parties_own.
Qed.

Lemma received_emitted h g c :
  own_signals h g ->
  received h g c (emitted h g) =
  match c with Det | Alter => 0 | _ => 1 end.
Proof.
  intros Ho. pose proof (fun a b => own_signals_ne h g a b Ho) as Hne.
  unfold received, emitted. cbn [map]. rewrite !filter_cons, filter_nil.
  cbn [ev_signal].
  destruct c; repeat case_decide; try done; clash Hne.
Qed.

(** ** A second run *)

Lemma vlook_twice h g u k :
  well_formed h g -> is_object h u ->
  vlook (finished (finished h g) g) u k = vlook (finished h g) u k.
Proof.
  intros Hwf Hu.
  pose proof (well_formed_finished h g Hwf) as Hwf'.
  pose proof (is_object_finished h g u Hu) as Hu'.
  destruct in_restores as (R1 & R2 & R3 & R4).
  destruct in_overlay_keys as (Kx & Ky & Kw & Kh).
  assert (Hov : forall k', k' ∈ overlay_keys ->
    vlook (finished (finished h g) g) u k' = vlook (finished h g) u k').
  { intros k' Hk'. rewrite vlook_finished_overlay by done.
    rewrite !target_finished by done. case_decide; [|done].
    rewrite vlook_finished_overlay by done. by rewrite decide_True. }
  assert (Hcur : forall c cur tot, (c, cur, tot) ∈ restores ->
    vlook (finished (finished h g) g) u cur = vlook (finished h g) u cur).
  { intros c cur tot Hr.
    rewrite (vlook_finished_current _ g u c cur tot) by done.
    rewrite target_finished by done. case_decide; [|done].
    rewrite (vlook_finished_current h g u c cur tot) by done.
    rewrite decide_True by done.
    apply vlook_finished_other; [done..|].
    by eapply baseline_not_written. }
  destruct (decide (k ∈ written_keys)) as [Hk|Hk].
  - unfold written_keys, data_keys in Hk.
    rewrite elem_of_app, !elem_of_cons in Hk.
    destruct Hk as [[->|[->|[->|[->|[->|[->|[->|[->|Hk]]]]]]]]|[->|Hk]];
      try (exfalso; by apply elem_of_nil in Hk).
    + exact (Hov _ Kx).
    + exact (Hov _ Ky).
    + exact (Hov _ Kw).
    + exact (Hov _ Kh).
    + exact (Hcur _ _ _ R1).
    + exact (Hcur _ _ _ R2).
    + exact (Hcur _ _ _ R3).
    + exact (Hcur _ _ _ R4).
    + rewrite vlook_finished_active by done.
      case_decide; [by rewrite vlook_finished_active, decide_True by done|].
      case_decide; [|done].
      rewrite vlook_finished_active by done.
      rewrite decide_False by done. by rewrite decide_True.
  - by apply vlook_finished_other.
Qed.

(** ** The widgets after a run *)

Lemma observe_detector_finished h g :
  well_formed h g ->
  observe (finished h g) g Det "active" =
  if decide (det g = alter g) then Prim (VNum 2) else Elems [VNum 0].
Proof.
  intros Hwf. unfold observe. rewrite target_finished by done.
  rewrite vlook_finished_active by (done || apply (wf_target _ _ Det Hwf)).
  change (target h g Det) with (det g).
  case_decide; [done|]. by rewrite decide_True.
Qed.


(** ** Two runs from stores with the same baselines *)


(** * The properties of the callback *)

(** C1: after reset the current fields equal the baseline fields:
    [proj_x] and [emission] of the xrf data are the values of
    [proj_x_tot] and [emission_tot], [en] and [proj_y] of the xas data
    are the values of [en_tot] and [proj_y_tot]; the same array, so the
    same length and elements, and they are the elements the baseline had
    when the callback was entered, whatever they were. *)
Theorem reset_restores_current m g s :
  well_formed (st_heap s) g ->
  exists s', reset m g s = Return tt s' ∧
    restored (st_heap s) (st_heap s') g Xrf "proj_x" "proj_x_tot" ∧
    restored (st_heap s) (st_heap s') g Xrf "emission" "emission_tot" ∧
    restored (st_heap s) (st_heap s') g Xas "en" "en_tot" ∧
    restored (st_heap s) (st_heap s') g Xas "proj_y" "proj_y_tot".
Proof.
  intros Hwf. eexists. split; [by apply reset_returns|]. simpl.
  destruct in_restores as (R1 & R2 & R3 & R4).
  split_and!; by apply restored_finished.
Qed.

(** C3: after reset the eight overlay fields, [x], [y], [width] and
    [height] of the selection data and of the peak data, are empty
    arrays, whatever they held before. *)
Theorem reset_clears_overlays m g s :
  well_formed (st_heap s) g ->
  exists s', reset m g s = Return tt s' ∧
    cleared (st_heap s') g Sel ∧ cleared (st_heap s') g Fluo.
Proof.
  intros Hwf. eexists. split; [by apply reset_returns|]. simpl.
  split; apply cleared_finished; auto.
Qed.

(** C5: reset never mutates the baseline fields: [proj_x_tot] and
    [emission_tot] of the xrf data and [en_tot] and [proj_y_tot] of the
    xas data hold after the call the values, and the elements, they held
    before it; no key outside the assigned ones changes on any of the six
    objects; the current fields hold what the baselines held at entry. *)
Theorem reset_keeps_baselines m g s :
  well_formed (st_heap s) g ->
  exists s', reset m g s = Return tt s' ∧
    untouched (st_heap s) (st_heap s') g Xrf "proj_x_tot" ∧
    untouched (st_heap s) (st_heap s') g Xrf "emission_tot" ∧
    untouched (st_heap s) (st_heap s') g Xas "en_tot" ∧
    untouched (st_heap s) (st_heap s') g Xas "proj_y_tot" ∧
    (forall c k, k ∉ written_keys ->
       untouched (st_heap s) (st_heap s') g c k) ∧
    Forall (fun r =>
      vfield (st_heap s') (target (st_heap s') g r.1.1) r.1.2 =
      vfield (st_heap s) (target (st_heap s) g r.1.1) r.2) restores.
Proof.
  intros Hwf. eexists. split; [by apply reset_returns|]. simpl.
  destruct in_restores as (R1 & R2 & R3 & R4).
  split_and!;
    try (apply untouched_finished; [done|];
         by eapply baseline_not_written).
  - intros c k Hk. by apply untouched_finished.
  - apply Forall_forall. intros [[c cur] tot] Hr. simpl.
    rewrite target_finished by done. by apply vfield_finished_restored.
Qed.

(** C6: after reset the [active] field of the detector widget is the
    one-element array [[0]] and the [active] field of the toggle widget
    is the number 2, whatever they were before; the two widgets being
    two objects. *)
Theorem reset_sets_widgets m g s :
  well_formed (st_heap s) g -> det g ≠ alter g ->
  exists s', reset m g s = Return tt s' ∧
    observe (st_heap s') g Det "active" = Elems [VNum 0] ∧
    vfield (st_heap s') (alter g) "active" = VNum 2.
Proof.
  intros Hwf Hne. eexists. split; [by apply reset_returns|]. simpl.
  split; [|by apply vfield_finished_toggle].
  unfold observe. simpl.
  rewrite vlook_finished_active by (done || apply (wf_target _ _ Det Hwf)).
  rewrite decide_False by done. by rewrite decide_True.
Qed.

(** C2: the notifications of one invocation are exactly four, on the
    change signal of the peak overlay, then of the selection overlay,
    then of xas, then of xrf; each of the four sources receives exactly
    one.  Every party has its own change signal. *)
Theorem reset_notifies_in_order m g s :
  well_formed (st_heap s) g -> own_signals (st_heap s) g ->
  exists s' evs, reset m g s = Return tt s' ∧
    st_trace s' = st_trace s ++ evs ∧
    map ev_signal evs = map (signal (st_heap s) g) [Fluo; Sel; Xas; Xrf] ∧
    notified (st_heap s) g evs = [[Fluo]; [Sel]; [Xas]; [Xrf]] ∧
    (forall c, c ∈ sources -> received (st_heap s) g c evs = 1).
Proof.
  intros Hwf Ho. eexists _, (emitted (st_heap s) g).
  split; [by apply reset_returns|]. simpl.
  split_and!; [done|done|by apply notified_emitted|].
  intros c Hc. rewrite received_emitted by done.
  unfold sources in Hc. rewrite !elem_of_cons in Hc.
  destruct Hc as [->|[->|[->|[->|Hc]]]]; try done.
  by apply elem_of_nil in Hc.
Qed.

(** C4: reset is idempotent: a second invocation right after the first
    leaves every field of the data of the four sources and of the two
    widgets as the first left it. *)
Theorem reset_idempotent m g s :
  well_formed (st_heap s) g ->
  exists s1 s2, reset m g s = Return tt s1 ∧ reset m g s1 = Return tt s2 ∧
    forall c k, observe (st_heap s2) g c k = observe (st_heap s1) g c k.
Proof.
  intros Hwf. pose proof (well_formed_finished _ g Hwf) as Hwf'.
  eexists _, _. split; [by apply reset_returns|].
  split; [by apply reset_returns|]. simpl. intros c k.
  unfold observe. rewrite !target_finished by done.
  apply vlook_twice; [done|by apply wf_target].
Qed.

(** C7: when the six names are bound as expected, reset raises no error
    and completes its seven effects: the selection fields are cleared,
    the xrf and the xas current fields are restored from their
    baselines, the peak fields are cleared, the four notifications are
    emitted in order, the detector widget is set to [[0]] and the toggle
    widget to 2. *)
Theorem reset_completes m g s :
  well_formed (st_heap s) g -> det g ≠ alter g ->
  exists s' evs, reset m g s = Return tt s' ∧
    cleared (st_heap s') g Sel ∧
    (restored (st_heap s) (st_heap s') g Xrf "proj_x" "proj_x_tot" ∧
     restored (st_heap s) (st_heap s') g Xrf "emission" "emission_tot") ∧
    (restored (st_heap s) (st_heap s') g Xas "en" "en_tot" ∧
     restored (st_heap s) (st_heap s') g Xas "proj_y" "proj_y_tot") ∧
    cleared (st_heap s') g Fluo ∧
    (st_trace s' = st_trace s ++ evs ∧
     map ev_signal evs = map (signal (st_heap s) g) [Fluo; Sel; Xas; Xrf]) ∧
    observe (st_heap s') g Det "active" = Elems [VNum 0] ∧
    vfield (st_heap s') (alter g) "active" = VNum 2.
Proof.
  intros Hwf Hne. eexists _, (emitted (st_heap s) g).
  split; [by apply reset_returns|]. simpl.
  destruct in_restores as (R1 & R2 & R3 & R4).
  split_and!; try (by apply restored_finished);
    try (apply cleared_finished; by auto);
    try done.
  - unfold observe. simpl.
    rewrite vlook_finished_active by (done || apply (wf_target _ _ Det Hwf)).
    rewrite decide_False by done. by rewrite decide_True.
  - by apply vfield_finished_toggle.
Qed.

(** C9: the data of the sources is fully written before the first
    notification: at each of the four notifications of an invocation
    the observers see the reset state, both overlays emptied and the
    four current fields holding their baselines, and every field of the
    data of each source holds the value, and shows the elements, it
    holds when the callback returns.  The widgets, written last, are
    objects of their own. *)
Theorem reset_mutates_before_notifying m g s :
  well_formed (st_heap s) g -> widgets_apart (st_heap s) g ->
  exists s' evs, reset m g s = Return tt s' ∧
    st_trace s' = st_trace s ++ evs ∧ length evs = 4 ∧
    forall e, e ∈ evs ->
      fully_reset (st_heap s) (ev_heap e) g ∧
      forall c k, c ∈ sources -> untouched (ev_heap e) (st_heap s') g c k.
Proof.
  intros Hwf Hap. destruct s as [h t]. cbn [st_heap st_trace] in *.
  exists (Store (finished h g) (t ++ emitted h g)), (emitted h g).
  split; [by apply reset_runs|]. cbn [st_heap st_trace].
  split_and!; [reflexivity|reflexivity|].
  intros e He. rewrite (heap_emitted _ _ _ He).
  assert (U : forall c k, c ∈ sources ->
    untouched (mutated h g) (finished h g) g c k).
  { intros c k Hc. unfold widgets_apart in Hap. rewrite Forall_forall in Hap.
    destruct (Hap c Hc) as [Hd Ha].
    pose proof (wf_target _ g c Hwf) as Ho.
    unfold untouched, observe.
    rewrite target_finished, target_mutated by done.
    split.
    - apply vfield_finished_mutated; auto with store.
    - apply vlook_finished_mutated; auto with store.
      by apply wf_closed with g. }
  split; [|exact U].
  assert (O : forall c k, c ∈ sources ->
    observe (mutated h g) g c k = observe (finished h g) g c k).
  { intros c k Hc. destruct (U c k Hc) as [_ E]. symmetry. exact E. }
  assert (V : forall c k, c ∈ sources ->
    vfield (mutated h g) (target (mutated h g) g c) k =
    vfield (finished h g) (target (finished h g) g c) k).
  { intros c k Hc. destruct (U c k Hc) as [E _]. symmetry. exact E. }
  destruct sources_all as (Sx & Sa & Ss & Sf).
  destruct in_restores as (R1 & R2 & R3 & R4).
  assert (C : forall c, c ∈ sources -> c = Sel ∨ c = Fluo ->
    cleared (mutated h g) g c).
  { intros c Hc Hsf. unfold cleared. rewrite !(O c) by exact Hc.
    by apply cleared_finished. }
  assert (R : forall c cur tot, c ∈ sources -> (c, cur, tot) ∈ restores ->
    restored h (mutated h g) g c cur tot).
  { intros c cur tot Hc Hr. unfold restored.
    rewrite !(V c), !(O c) by exact Hc. by apply restored_finished. }
  unfold fully_reset. split_and!;
    first [ apply C; [assumption|auto] | apply R; assumption ].
Qed.


(** * The callback on the demo session *)

Ltac by_evaluation := apply (bool_decide_unpack _); vm_compute; exact I.

(** The scenario of the specification: xrf data with current fields
    [[1,2]] and [[3,4]] and baselines [[0,0,0]] and [[9,9,9]], a
    selection with one rectangle. *)
Example demo_run_xrf :
  match reset Sloppy demo_args demo_store with
  | Return _ s' =>
      [observe (st_heap s') demo_args Xrf "proj_x";
       observe (st_heap s') demo_args Xrf "emission";
       observe (st_heap s') demo_args Sel "x";
       observe (st_heap s') demo_args Sel "height";
       observe (st_heap s') demo_args Det "active";
       observe (st_heap s') demo_args Alter "active"]
  | Throw _ _ => []
  end =
  [Elems [VNum 0; VNum 0; VNum 0]; Elems [VNum 9; VNum 9; VNum 9];
   Elems []; Elems []; Elems [VNum 0]; Prim (VNum 2)].
Proof. vm_compute. reflexivity. Qed.

Example demo_run_trace :
  match reset Strict demo_args demo_store with
  | Return _ s' => map ev_signal (st_trace s')
  | Throw _ _ => []
  end = [VRef 24; VRef 23; VRef 22; VRef 21].
Proof. vm_compute. reflexivity. Qed.

(** Bound to a selection without a [data] object, the first assignment
    throws and nothing is notified. *)
Example demo_run_unbound :
  match reset Sloppy
          (Args (VRef 1) (VRef 2) (VRef 5) (VRef 4) (VRef 5) (VRef 6))
          demo_store with
  | Return _ _ => None
  | Throw e s' => Some (e, st_trace s')
  end = Some (TypeError, []).
Proof. vm_compute. reflexivity. Qed.

Lemma reset_restores_current_witness :
  well_formed (st_heap demo_store) demo_args ∧
  exists s', reset Sloppy demo_args demo_store = Return tt s' ∧
    restored (st_heap demo_store) (st_heap s') demo_args
      Xrf "proj_x" "proj_x_tot" ∧
    restored (st_heap demo_store) (st_heap s') demo_args
      Xrf "emission" "emission_tot" ∧
    restored (st_heap demo_store) (st_heap s') demo_args
      Xas "en" "en_tot" ∧
    restored (st_heap demo_store) (st_heap s') demo_args
      Xas "proj_y" "proj_y_tot".
Proof.
  assert (Hwf : well_formed (st_heap demo_store) demo_args) by by_evaluation.
  split; [exact Hwf|].
  exact (reset_restores_current Sloppy demo_args demo_store Hwf).
Defined.

Lemma reset_notifies_in_order_witness :
  well_formed (st_heap demo_store) demo_args ∧
  own_signals (st_heap demo_store) demo_args ∧
  exists s' evs, reset Sloppy demo_args demo_store = Return tt s' ∧
    st_trace s' = st_trace demo_store ++ evs ∧
    map ev_signal evs =
      map (signal (st_heap demo_store) demo_args) [Fluo; Sel; Xas; Xrf] ∧
    notified (st_heap demo_store) demo_args evs =
      [[Fluo]; [Sel]; [Xas]; [Xrf]] ∧
    (forall c, c ∈ sources ->
       received (st_heap demo_store) demo_args c evs = 1).
Proof.
  assert (Hwf : well_formed (st_heap demo_store) demo_args) by by_evaluation.
  assert (Ho : own_signals (st_heap demo_store) demo_args) by by_evaluation.
  split_and!; [exact Hwf|exact Ho|].
  exact (reset_notifies_in_order Sloppy demo_args demo_store Hwf Ho).
Defined.

Lemma reset_clears_overlays_witness :
  well_formed (st_heap demo_store) demo_args ∧
  exists s', reset Sloppy demo_args demo_store = Return tt s' ∧
    cleared (st_heap s') demo_args Sel ∧ cleared (st_heap s') demo_args Fluo.
Proof.
  assert (Hwf : well_formed (st_heap demo_store) demo_args) by by_evaluation.
  split; [exact Hwf|].
  exact (reset_clears_overlays Sloppy demo_args demo_store Hwf).
Defined.

Lemma reset_idempotent_witness :
  well_formed (st_heap demo_store) demo_args ∧
  exists s1 s2, reset Strict demo_args demo_store = Return tt s1 ∧
    reset Strict demo_args s1 = Return tt s2 ∧
    forall c k,
      observe (st_heap s2) demo_args c k = observe (st_heap s1) demo_args c k.
Proof.
  assert (Hwf : well_formed (st_heap demo_store) demo_args) by by_evaluation.
  split; [exact Hwf|].
  exact (reset_idempotent Strict demo_args demo_store Hwf).
Defined.

Lemma reset_keeps_baselines_witness :
  well_formed (st_heap demo_store) demo_args ∧
  exists s', reset Sloppy demo_args demo_store = Return tt s' ∧
    untouched (st_heap demo_store) (st_heap s') demo_args Xrf "proj_x_tot" ∧
    untouched (st_heap demo_store) (st_heap s') demo_args Xrf "emission_tot" ∧
    untouched (st_heap demo_store) (st_heap s') demo_args Xas "en_tot" ∧
    untouched (st_heap demo_store) (st_heap s') demo_args Xas "proj_y_tot" ∧
    (forall c k, k ∉ written_keys ->
       untouched (st_heap demo_store) (st_heap s') demo_args c k) ∧
    Forall (fun r =>
      vfield (st_heap s') (target (st_heap s') demo_args r.1.1) r.1.2 =
      vfield (st_heap demo_store)
             (target (st_heap demo_store) demo_args r.1.1) r.2) restores.
Proof.
  assert (Hwf : well_formed (st_heap demo_store) demo_args) by by_evaluation.
  split; [exact Hwf|].
  exact (reset_keeps_baselines Sloppy demo_args demo_store Hwf).
Defined.

Lemma reset_sets_widgets_witness :
  well_formed (st_heap demo_store) demo_args ∧
  det demo_args ≠ alter demo_args ∧
  exists s', reset Sloppy demo_args demo_store = Return tt s' ∧
    observe (st_heap s') demo_args Det "active" = Elems [VNum 0] ∧
    vfield (st_heap s') (alter demo_args) "active" = VNum 2.
Proof.
  assert (Hwf : well_formed (st_heap demo_store) demo_args) by by_evaluation.
  assert (Hne : det demo_args ≠ alter demo_args) by by_evaluation.
  split_and!; [exact Hwf|exact Hne|].
  exact (reset_sets_widgets Sloppy demo_args demo_store Hwf Hne).
Defined.

Lemma reset_completes_witness :
  well_formed (st_heap demo_store) demo_args ∧
  det demo_args ≠ alter demo_args ∧
  exists s' evs, reset Strict demo_args demo_store = Return tt s' ∧
    cleared (st_heap s') demo_args Sel ∧
    (restored (st_heap demo_store) (st_heap s') demo_args
       Xrf "proj_x" "proj_x_tot" ∧
     restored (st_heap demo_store) (st_heap s') demo_args
       Xrf "emission" "emission_tot") ∧
    (restored (st_heap demo_store) (st_heap s') demo_args
       Xas "en" "en_tot" ∧
     restored (st_heap demo_store) (st_heap s') demo_args
       Xas "proj_y" "proj_y_tot") ∧
    cleared (st_heap s') demo_args Fluo ∧
    (st_trace s' = st_trace demo_store ++ evs ∧
     map ev_signal evs =
       map (signal (st_heap demo_store) demo_args) [Fluo; Sel; Xas; Xrf]) ∧
    observe (st_heap s') demo_args Det "active" = Elems [VNum 0] ∧
    vfield (st_heap s') (alter demo_args) "active" = VNum 2.
Proof.
  assert (Hwf : well_formed (st_heap demo_store) demo_args) by by_evaluation.
  assert (Hne : det demo_args ≠ alter demo_args) by by_evaluation.
  split_and!; [exact Hwf|exact Hne|].
  exact (reset_completes Strict demo_args demo_store Hwf Hne).
Defined.


Lemma reset_mutates_before_notifying_witness :
  well_formed (st_heap demo_store) demo_args ∧
  widgets_apart (st_heap demo_store) demo_args ∧
  exists s' evs, reset Sloppy demo_args demo_store = Return tt s' ∧
    st_trace s' = st_trace demo_store ++ evs ∧ length evs = 4 ∧
    forall e, e ∈ evs ->
      fully_reset (st_heap demo_store) (ev_heap e) demo_args ∧
      forall c k, c ∈ sources ->
        untouched (ev_heap e) (st_heap s') demo_args c k.
Proof.
  assert (Hwf : well_formed (st_heap demo_store) demo_args) by by_evaluation.
  assert (Ha : widgets_apart (st_heap demo_store) demo_args)
    by by_evaluation.
  split_and!; [exact Hwf|exact Ha|].
  exact (reset_mutates_before_notifying Sloppy demo_args demo_store Hwf Ha).
Defined.

(** * Runs that fail, and runs from any store *)

(** ** Every outcome leaves the heap undisturbed *)

Lemma undisturbed_refl h : undisturbed h h.
Proof. by intros l Hl. Qed.

Lemma undisturbed_trans h1 h2 h3 :
  undisturbed h1 h2 -> undisturbed h2 h3 -> undisturbed h1 h3.
Proof.
  intros H12 H23 l Hl. destruct (H12 l Hl) as [K12 F12].
  assert (Hl2 : is_Some (h2 !! l)).
  { unfold kindof in K12. destruct Hl as [o Ho]. rewrite Ho in K12.
    destruct (h2 !! l); [eauto|done]. }
  destruct (H23 l Hl2) as [K23 F23]. split; [congruence|].
  intros k Hk. rewrite F23, F12; done.
Qed.

Lemma undisturbed_heap_write h l k x :
  k ∈ written_keys -> undisturbed h (heap_write l k x h).
Proof.
  intros Hk l' Hl'. split; [apply kindof_heap_write|].
  intros k' Hk'. rewrite field_heap_write, decide_False; [done|].
  intros (_ & -> & _). done.
Qed.

Lemma undisturbed_heap_alloc h es :
  undisturbed h (heap_alloc (fresh (dom h)) es h).
Proof.
  intros l Hl. assert (fresh (dom h) ≠ l).
  { intros <-. rewrite fresh_None in Hl. by destruct Hl. }
  unfold kindof, field, heap_alloc. by rewrite lookup_insert_ne.
Qed.

Lemma gentle_bind {A B} (c : js A) (f : A -> js B) :
  gentle c -> (forall a, gentle (f a)) -> gentle (bind c f).
Proof.
  intros Hc Hf s. specialize (Hc s). unfold bind.
  destruct (c s) as [a s1|e s1]; simpl in *; [|done].
  eapply undisturbed_trans; [exact Hc|apply Hf].
Qed.

Lemma gentle_get_prop v k : gentle (get_prop v k).
Proof.
  intros s. unfold get_prop.
  destruct v; simpl; try apply undisturbed_refl.
  destruct (st_heap s !! l); apply undisturbed_refl.
Qed.

Lemma gentle_set_prop m v k x : k ∈ written_keys -> gentle (set_prop m v k x).
Proof.
  intros Hk s. unfold set_prop.
  destruct v; simpl; try apply undisturbed_refl;
    try (destruct m; apply undisturbed_refl).
  destruct (st_heap s !! l); simpl;
    [by apply undisturbed_heap_write|apply undisturbed_refl].
Qed.

Lemma gentle_new_array es : gentle (new_array es).
Proof. intros s. apply undisturbed_heap_alloc. Qed.

Lemma gentle_call_emit c : gentle (call_emit c).
Proof.
  intros s. unfold call_emit. destruct c; simpl; try apply undisturbed_refl.
  destruct (kindof (st_heap s) l) as [[]|]; apply undisturbed_refl.
Qed.

Lemma written_keys_all :
  Forall (fun k => k ∈ written_keys)
    ["x"; "y"; "width"; "height"; "proj_x"; "emission"; "en"; "proj_y";
     "active"].
Proof. by apply Forall_forall. Qed.

(** X1: whatever the store and whether the callback returns or throws,
    every object that existed at entry is still there with its kind, an
    array with the elements it had, and every property under a key other
    than the nine assigned ones is as it was: reset never deletes an
    object, never writes into an array and never rebinds [data] or
    [change]. *)
Theorem reset_undisturbing m g s l :
  is_Some (st_heap s !! l) ->
  kindof (st_heap (final (reset m g s))) l = kindof (st_heap s) l ∧
  forall k, k ∉ written_keys ->
    field (st_heap (final (reset m g s))) l k = field (st_heap s) l k.
Proof.
  intros Hl. pose proof written_keys_all as Hk.
  rewrite !Forall_cons in Hk. destruct_and!.
  assert (Hg : gentle (reset m g)).
  { unfold reset.
    repeat first
      [ apply gentle_bind; [|intros ?]
      | apply gentle_get_prop
      | apply gentle_new_array
      | apply gentle_call_emit
      | apply gentle_set_prop; assumption ]. }
  exact (Hg s l Hl).
Qed.

(** ** Every outcome notifies in order *)










(** ** Names left unbound *)

Lemma bind_throw {A B} (c : js A) (f : A -> js B) s e s' :
  c s = Throw e s' -> bind c f s = Throw e s'.
Proof. intros E. unfold bind. by rewrite E. Qed.

Lemma get_prop_cases v k s :
  get_prop v k s = Throw TypeError s ∨ exists x, get_prop v k s = Return x s.
Proof.
  unfold get_prop. destruct v; eauto. destruct (st_heap s !! l); eauto.
Qed.

Lemma get_prop_nullish v k s :
  nullish v -> get_prop v k s = Throw TypeError s.
Proof. by intros [-> | ->]. Qed.

Lemma set_prop_nullish m v k x s :
  nullish v -> set_prop m v k x s = Throw TypeError s.
Proof. by intros [-> | ->]. Qed.

(** X3: when one of the four source names is bound to [undefined] or
    [null], the callback throws a TypeError while still reading the
    [data] objects (lines 1 to 4): the store is exactly as it was,
    nothing is assigned and nothing is notified. *)
Theorem reset_unbound_source m g s c :
  c ∈ sources -> nullish (handle g c) ->
  reset m g s = Throw TypeError s.
Proof.
  intros Hc Hn. unfold reset.
  pose proof (get_prop_nullish (handle g c) "data" s Hn) as Hthrow.
  unfold sources in Hc. rewrite !elem_of_cons in Hc.
  destruct (get_prop_cases (xrf g) "data" s) as [E1|[d2 E1]];
    [by apply bind_throw|].
  rewrite (bind_run _ _ _ _ _ E1).
  destruct (get_prop_cases (xas g) "data" s) as [E2|[d3 E2]];
    [by apply bind_throw|].
  rewrite (bind_run _ _ _ _ _ E2).
  destruct (get_prop_cases (sel g) "data" s) as [E3|[rect E3]];
    [by apply bind_throw|].
  rewrite (bind_run _ _ _ _ _ E3).
  destruct (get_prop_cases (fluo g) "data" s) as [E4|[peak E4]];
    [by apply bind_throw|].
  exfalso. destruct Hc as [->|[->|[->|[->|Hc]]]]; simpl in Hthrow;
    [congruence..|]. by apply elem_of_nil in Hc.
Qed.

(** ** A source without [data] *)

Lemma selection_assignments_eq h g :
  exec_all (selection_assignments h g) h =
  vfill (vfield h (sel g) "data") "height" []
   (vfill (vfield h (sel g) "data") "width" []
    (vfill (vfield h (sel g) "data") "y" []
     (vfill (vfield h (sel g) "data") "x" [] h))).
Proof. done. Qed.

Lemma key_selection_assignments h g :
  Forall (fun st => key st ≠ "data") (selection_assignments h g).
Proof. repeat constructor; discriminate. Qed.

Lemma literal_ok_selection_assignments h g :
  Forall (literal_ok h) (selection_assignments h g).
Proof. repeat constructor. Qed.

Lemma lookup_vwrite_ne v k x (h : gmap loc obj) l :
  v ≠ VRef l -> vwrite v k x h !! l = h !! l.
Proof.
  intros Hv. destruct v as [| | | | |l']; cbn [vwrite]; try done.
  unfold heap_write. apply lookup_alter_ne. congruence.
Qed.

Lemma lookup_exec_ne st (h : gmap loc obj) l :
  is_Some (h !! l) -> receiver st ≠ VRef l -> exec st h !! l = h !! l.
Proof.
  intros Hl Hr. destruct st as [v k es|v cur tot|v k x];
    cbn [exec receiver] in *.
  - unfold vfill. rewrite lookup_vwrite_ne by done.
    unfold heap_alloc. apply lookup_insert_ne.
    intros E. rewrite <- E, fresh_None in Hl. by destruct Hl.
  - unfold vrestore. by apply lookup_vwrite_ne.
  - by apply lookup_vwrite_ne.
Qed.

Lemma lookup_exec_all_ne sts (h : gmap loc obj) l :
  is_Some (h !! l) -> Forall (fun st => receiver st ≠ VRef l) sts ->
  exec_all sts h !! l = h !! l.
Proof.
  intros Hl Hr. revert h Hl.
  induction Hr as [|st sts Hst _ IH]; intros h Hl; [done|].
  cbn [exec_all]. rewrite IH.
  - by apply lookup_exec_ne.
  - by rewrite lookup_exec_ne.
Qed.

Lemma receiver_selection_assignments h g u :
  target h g Sel ≠ u ->
  Forall (fun st => receiver st ≠ u) (selection_assignments h g).
Proof. intros Hu. repeat constructor; exact Hu. Qed.

Lemma key_selection_assignments_other h g k :
  k ∉ overlay_keys ->
  Forall (fun st => key st ≠ k) (selection_assignments h g).
Proof.
  unfold overlay_keys. rewrite !not_elem_of_cons. intros (? & ? & ? & ? & _).
  repeat constructor; cbn; congruence.
Qed.

(** X4: when the xrf source is an object without a [data] object, the
    read on line 1 yields [undefined] and the callback goes on: it
    throws a TypeError only on line 10, when lines 6 to 9 have run and
    nothing after them has: the four fields of the selection overlay
    are emptied, every other field of the selection data and every
    other object of the store, the xas and peak data and the widgets
    among them, is exactly as it was, and nobody is notified. *)
Theorem reset_missing_data m g s :
  closed (st_heap s) ->
  Forall (fun c => is_object (st_heap s) (handle g c)) sources ->
  is_object (st_heap s) (target (st_heap s) g Sel) ->
  nullish (target (st_heap s) g Xrf) ->
  exists s', reset m g s = Throw TypeError s' ∧
    st_trace s' = st_trace s ∧ cleared (st_heap s') g Sel ∧
    (forall k, k ∉ overlay_keys ->
       vfield (st_heap s') (target (st_heap s) g Sel) k =
       vfield (st_heap s) (target (st_heap s) g Sel) k) ∧
    (forall l, is_Some (st_heap s !! l) ->
       target (st_heap s) g Sel ≠ VRef l ->
       st_heap s' !! l = st_heap s !! l).
Proof.
  destruct s as [h t]. cbn [st_heap st_trace]. intros Hc Hh Hrect Hd2.
  unfold sources in Hh. rewrite !Forall_cons in Hh. cbn [handle] in Hh.
  destruct Hh as (Hxrf & Hxas & Hsel & Hfluo & _).
  exists (Store (exec_all (selection_assignments h g) h) t).
  cbn [st_heap st_trace]. split_and!; [|reflexivity|..].
  - change (target h g Sel) with (vfield h (sel g) "data") in Hrect.
    change (target h g Xrf) with (vfield h (xrf g) "data") in Hd2.
    unfold reset.
    do 4 (erewrite bind_run; [|by apply get_prop_run]).
    do 4 (erewrite bind_run; [|apply fill_run; auto 20 with store]).
    rewrite <- selection_assignments_eq.
    by apply bind_throw, bind_throw, get_prop_nullish.
  - change (target h g Sel) with (vfield h (sel g) "data") in Hrect.
    assert (E : forall k, k ∈ overlay_keys ->
      observe (exec_all (selection_assignments h g) h) g Sel k = Elems []).
    { intros k Hk. unfold observe.
      change (target ?h' g Sel) with (vfield h' (sel g) "data").
      rewrite vfield_exec_all_key;
        [|apply key_selection_assignments|by apply val_ok_of_object].
      rewrite vlook_exec_all;
        [|done|apply literal_ok_selection_assignments|done].
      unfold overlay_keys in Hk. rewrite !elem_of_cons in Hk.
      destruct Hk as [->|[->|[->|[->|Hk]]]];
        [..|by apply elem_of_nil in Hk];
        cbn; by rewrite decide_True. }
    destruct in_overlay_keys as (Kx & Ky & Kw & Kh).
    unfold cleared. by rewrite !E.
  - intros k Hk. apply vfield_exec_all_key;
      [by apply key_selection_assignments_other|by apply val_ok_of_object].
  - intros l Hl Hne. apply lookup_exec_all_ne; [done|].
    by apply receiver_selection_assignments.
Qed.

(** ** A widget left unbound *)

Lemma sb_closed h g : sources_bound h g -> closed h.
Proof. by intros [? _]. Qed.

Lemma sb_target h g c :
  sources_bound h g -> c ∈ sources -> is_object h (target h g c).
Proof. intros (_ & Ht & _). rewrite Forall_forall in Ht. apply Ht. Qed.

Lemma sb_handle h g c :
  sources_bound h g -> c ∈ sources -> is_object h (handle g c).
Proof.
  intros Hsb Hc. pose proof (sb_target h g c Hsb Hc) as Ht.
  unfold sources in Hc. rewrite !elem_of_cons in Hc.
  destruct Hc as [->|[->|[->|[->|Hc]]]];
    [by apply is_object_vfield_inv in Ht..|by apply elem_of_nil in Hc].
Qed.

Lemma sb_signal h g c :
  sources_bound h g -> c ∈ sources -> is_signal h (signal h g c).
Proof. intros (_ & _ & Hs). rewrite Forall_forall in Hs. apply Hs. Qed.

Lemma well_formed_sources_bound h g : well_formed h g -> sources_bound h g.
Proof.
  intros (Hc & Ht & Hs). split_and!; [done| |done].
  unfold components in Ht. by apply Forall_app in Ht as [Ht _].
Qed.

(** With the sources bound, the callback gets as far as the widgets:
    what is left to run are lines 23 and 24, on the mutated heap and
    with the four notifications sent. *)
Lemma reset_reaches_widgets m g h t :
  sources_bound h g ->
  reset m g (Store h t) =
  ((let! a := new_array [VNum 0] in set_prop m (det g) "active" a) ;;;
   set_prop m (alter g) "active" (VNum 2))
    (Store (mutated h g) (t ++ emitted h g)).
Proof.
  intros Hsb. destruct sources_all as (Sx & Sa & Ss & Sf).
  pose proof (sb_handle h g Xrf Hsb Sx) as Hxrf.
  pose proof (sb_handle h g Xas Hsb Sa) as Hxas.
  pose proof (sb_handle h g Sel Hsb Ss) as Hsel.
  pose proof (sb_handle h g Fluo Hsb Sf) as Hfluo.
  pose proof (sb_target h g Xrf Hsb Sx) as Hd2.
  pose proof (sb_target h g Xas Hsb Sa) as Hd3.
  pose proof (sb_target h g Sel Hsb Ss) as Hrect.
  pose proof (sb_target h g Fluo Hsb Sf) as Hpeak.
  cbn [handle] in *.
  change (target h g Xrf) with (vfield h (xrf g) "data") in Hd2.
  change (target h g Xas) with (vfield h (xas g) "data") in Hd3.
  change (target h g Sel) with (vfield h (sel g) "data") in Hrect.
  change (target h g Fluo) with (vfield h (fluo g) "data") in Hpeak.
  unfold reset.
  do 4 (erewrite bind_run; [|by apply get_prop_run]).
  do 4 (erewrite bind_run; [|apply fill_run; auto 20 with store]).
  do 4 (erewrite bind_run; [|apply restore_run; auto 20 with store]).
  do 4 (erewrite bind_run; [|apply fill_run; auto 20 with store]).
  rewrite <- (mutated_eq h g).
  assert (HD : forall c, c ∈ sources ->
    forall t', (let! c := get_prop (handle g c) "change" in call_emit c)
               (Store (mutated h g) t') =
    Return tt (Store (mutated h g)
                     (t' ++ [Event (signal h g c) (mutated h g)]))).
  { intros c Hc t'. pose proof (sb_handle h g c Hsb Hc) as Hh.
    assert (E : vfield (mutated h g) (handle g c) "change" = signal h g c).
    { apply vfield_mutated; [|by apply val_ok_of_object].
      apply change_not_written. }
    rewrite emit_run; [by rewrite E|by apply is_object_mutated|].
    rewrite E. by apply is_signal_mutated, sb_signal. }
  erewrite bind_run; [|exact (HD Fluo Sf _)].
  erewrite bind_run; [|exact (HD Sel Ss _)].
  erewrite bind_run; [|exact (HD Xas Sa _)].
  erewrite bind_run; [|exact (HD Xrf Sx _)].
  unfold emitted. cbn [map]. by rewrite <- !app_assoc.
Qed.

Lemma active_not_data_key : "active" ∉ data_keys.
Proof.
  unfold data_keys. rewrite !not_elem_of_cons.
  split_and!; try discriminate. apply not_elem_of_nil.
Qed.

Lemma vfield_stranded h g u k :
  val_ok h u -> vfield (stranded h g) u k = vfield (mutated h g) u k.
Proof.
  intros Hu. apply vfield_alloc; [apply fresh_None|by apply val_ok_mutated].
Qed.

Lemma observe_stranded h g c k :
  sources_bound h g -> c ∈ sources ->
  observe (stranded h g) g c k = seen (rev (assignments h g)) h (target h g c) k.
Proof.
  intros Hsb Hc. pose proof (sb_closed h g Hsb) as Hcl.
  pose proof (sb_handle h g c Hsb Hc) as Hh.
  pose proof (sb_target h g c Hsb Hc) as Ht.
  assert (E : target (stranded h g) g c = target h g c).
  { unfold sources in Hc. rewrite !elem_of_cons in Hc.
    destruct Hc as [->|[->|[->|[->|Hc]]]];
      [..|by apply elem_of_nil in Hc];
      (change (target ?h' g ?c') with (vfield h' (handle g c') "data");
       rewrite vfield_stranded by (by apply val_ok_of_object);
       apply vfield_mutated;
         [apply data_not_data_key|by apply val_ok_of_object]). }
  unfold observe. rewrite E. unfold vlook.
  rewrite vfield_stranded by by apply val_ok_of_object.
  unfold stranded. rewrite snap_alloc;
    [|apply fresh_None|by apply closed_vfield, closed_mutated].
  change (snap (mutated h g) (vfield (mutated h g) (target h g c) k))
    with (vlook (mutated h g) (target h g c) k).
  rewrite mutated_assignments.
  apply vlook_exec_all; [done|apply literal_ok_assignments|done].
Qed.

(** X5: when the sources are bound and the detector widget is
    [undefined] or [null], the callback throws a TypeError on line 23,
    after everything else has happened: the overlays are emptied, the
    current fields restored, the four notifications sent in order; the
    toggle widget, assigned on the line after, keeps the [active] it
    had. *)
Theorem reset_unbound_detector m g s :
  sources_bound (st_heap s) g -> nullish (det g) ->
  val_ok (st_heap s) (alter g) ->
  exists s' evs, reset m g s = Throw TypeError s' ∧
    st_trace s' = st_trace s ++ evs ∧
    map ev_signal evs = map (signal (st_heap s) g) [Fluo; Sel; Xas; Xrf] ∧
    cleared (st_heap s') g Sel ∧ cleared (st_heap s') g Fluo ∧
    Forall (fun r => observe (st_heap s') g r.1.1 r.1.2 =
                     observe (st_heap s) g r.1.1 r.2) restores ∧
    vfield (st_heap s') (alter g) "active" =
    vfield (st_heap s) (alter g) "active".
Proof.
  destruct s as [h t]. cbn [st_heap st_trace]. intros Hsb Hdet Halt.
  destruct sources_all as (Sx & Sa & Ss & Sf).
  exists (Store (stranded h g) (t ++ emitted h g)), (emitted h g).
  cbn [st_heap st_trace]. split_and!.
  - rewrite reset_reaches_widgets by done.
    apply bind_throw. unfold bind, new_array. cbn [st_heap st_trace].
    by apply set_prop_nullish.
  - reflexivity.
  - reflexivity.
  - unfold cleared. rewrite !observe_stranded by done.
    cbn. repeat case_decide; done.
  - unfold cleared. rewrite !observe_stranded by done.
    cbn. by rewrite !decide_True.
  - unfold restores. repeat constructor; cbn [fst snd];
      rewrite observe_stranded by done; cbn;
      rewrite decide_True by done; cbn; reflexivity.
  - rewrite vfield_stranded by done.
    apply vfield_mutated; [apply active_not_data_key|done].
Qed.

(** ** A baseline that is not there *)

(** X6: a missing baseline field is no error: when the data of a source
    has no value under a baseline key, the callback returns normally and
    the current field it restores reads [undefined] afterwards. *)
Theorem reset_missing_baseline m g s c cur tot :
  well_formed (st_heap s) g -> (c, cur, tot) ∈ restores ->
  vfield (st_heap s) (target (st_heap s) g c) tot = VUndefined ->
  exists s', reset m g s = Return tt s' ∧
    vfield (st_heap s') (target (st_heap s') g c) cur = VUndefined ∧
    observe (st_heap s') g c cur = Prim VUndefined.
Proof.
  intros Hwf Hr Hu. eexists. split; [by apply reset_returns|].
  cbn [st_heap].
  destruct (restored_finished _ g c cur tot Hwf Hr) as (_ & _ & Ho).
  split.
  - rewrite target_finished by done.
    by rewrite (vfield_finished_restored _ g c cur tot).
  - rewrite Ho. unfold observe, vlook. by rewrite Hu.
Qed.

(** ** One run after another *)

(** X7: a run leaves the store as a run needs it: after reset the six
    names are bound as before, each source to the same [data] object and
    the same change signal, the store is well-formed again, and the
    parties still have signals of their own and the widgets objects of
    their own when they had. *)
Theorem reset_keeps_well_formed m g s :
  well_formed (st_heap s) g ->
  exists s', reset m g s = Return tt s' ∧
    well_formed (st_heap s') g ∧
    (forall c, target (st_heap s') g c = target (st_heap s) g c ∧
               signal (st_heap s') g c = signal (st_heap s) g c) ∧
    (own_signals (st_heap s) g -> own_signals (st_heap s') g) ∧
    (widgets_apart (st_heap s) g -> widgets_apart (st_heap s') g).
Proof.
  intros Hwf. eexists. split; [by apply reset_returns|]. cbn [st_heap].
  split_and!.
  - by apply well_formed_finished.
  - intros c. by rewrite target_finished, signal_finished.
  - unfold own_signals, components, sources, widgets. cbn [app map].
    by rewrite !signal_finished.
  - intros Hap. unfold widgets_apart in *.
    eapply Forall_impl; [exact Hap|]. intros c Hc. cbn beta in *.
    by rewrite target_finished.
Qed.



(** ** Names bound to one object *)

(** X9: when [det] and [alter] are bound to the same widget, the later
    assignment wins: after reset its [active] is the number 2, not the
    array [[0]] that line 23 stored there. *)
Theorem reset_one_widget m g s :
  well_formed (st_heap s) g -> det g = alter g ->
  exists s', reset m g s = Return tt s' ∧
    observe (st_heap s') g Det "active" = Prim (VNum 2) ∧
    vfield (st_heap s') (det g) "active" = VNum 2.
Proof.
  intros Hwf He. eexists. split; [by apply reset_returns|]. cbn [st_heap].
  split.
  - rewrite observe_detector_finished by done. by rewrite decide_True.
  - rewrite He. by apply vfield_finished_toggle.
Qed.

(** X10: when the sources are bound and the toggle widget is
    [undefined] or [null], the callback throws a TypeError on its last
    line, with the four notifications sent and the detector widget
    already set to [[0]]. *)
Theorem reset_unbound_toggle m g s :
  sources_bound (st_heap s) g -> is_object (st_heap s) (det g) ->
  nullish (alter g) ->
  exists s' evs, reset m g s = Throw TypeError s' ∧
    st_trace s' = st_trace s ++ evs ∧
    map ev_signal evs = map (signal (st_heap s) g) [Fluo; Sel; Xas; Xrf] ∧
    vlook (st_heap s') (det g) "active" = Elems [VNum 0].
Proof.
  destruct s as [h t]. cbn [st_heap st_trace]. intros Hsb Hdet Halt.
  exists (Store (vfill (det g) "active" [VNum 0] (mutated h g))
                (t ++ emitted h g)), (emitted h g).
  cbn [st_heap st_trace]. split_and!; [|reflexivity|reflexivity|].
  - rewrite reset_reaches_widgets by done.
    erewrite bind_run; [|apply fill_run; by apply is_object_mutated].
    by apply set_prop_nullish.
  - apply vlook_vfill_eq. by apply is_object_mutated.
Qed.

(** X11: when the selection source is an object without a [data]
    object, the callback throws a TypeError on its first assignment
    (line 6): every object of the store is exactly as it was and nobody
    is notified. *)
Theorem reset_missing_selection_data m g s :
  Forall (fun c => is_object (st_heap s) (handle g c)) sources ->
  nullish (target (st_heap s) g Sel) ->
  exists s', reset m g s = Throw TypeError s' ∧
    st_trace s' = st_trace s ∧
    forall l, is_Some (st_heap s !! l) -> st_heap s' !! l = st_heap s !! l.
Proof.
  destruct s as [h t]. cbn [st_heap st_trace]. intros Hh Hrect.
  unfold sources in Hh. rewrite !Forall_cons in Hh. cbn [handle] in Hh.
  destruct Hh as (Hxrf & Hxas & Hsel & Hfluo & _).
  change (target h g Sel) with (vfield h (sel g) "data") in Hrect.
  exists (Store (heap_alloc (fresh (dom h)) [] h) t).
  cbn [st_heap st_trace]. split_and!; [|reflexivity|].
  - unfold reset.
    do 4 (erewrite bind_run; [|by apply get_prop_run]).
    apply bind_throw. unfold bind, new_array. cbn [st_heap st_trace].
    by apply set_prop_nullish.
  - intros l Hl. unfold heap_alloc. apply lookup_insert_ne.
    intros E. rewrite <- E, fresh_None in Hl. by destruct Hl.
Qed.

(** ** The arrays a run creates *)

Lemma dom_vwrite v k x (h : gmap loc obj) : dom (vwrite v k x h) = dom h.
Proof. destruct v; simpl; try done. apply dom_alter_L. Qed.

Lemma dom_vfill v k es (h : gmap loc obj) :
  dom (vfill v k es h) = {[fresh (dom h)]} ∪ dom h.
Proof. unfold vfill. rewrite dom_vwrite. apply dom_insert_L. Qed.

Lemma dom_exec st (h : gmap loc obj) : dom h ⊆ dom (exec st h).
Proof.
  destruct st; simpl.
  - rewrite dom_vfill. apply union_subseteq_r.
  - unfold vrestore. by rewrite dom_vwrite.
  - by rewrite dom_vwrite.
Qed.

Lemma dom_exec_all sts (h : gmap loc obj) : dom h ⊆ dom (exec_all sts h).
Proof.
  revert h. induction sts as [|st sts IH]; intros h; simpl; [done|].
  etrans; [apply dom_exec|apply IH].
Qed.









(** ** A source without a change signal *)

Lemma kindof_exec st h l :
  is_Some (h !! l) -> kindof (exec st h) l = kindof h l.
Proof.
  intros Hl.
  assert (Ha : forall es, kindof (heap_alloc (fresh (dom h)) es h) l
                          = kindof h l).
  { intros es. unfold kindof, heap_alloc. rewrite lookup_insert_ne; [done|].
    intros E. rewrite <- E, fresh_None in Hl. by destruct Hl. }
  destruct st as [v k es|v cur tot|v k x]; cbn [exec].
  - unfold vfill. destruct v; cbn [vwrite]; rewrite ?kindof_heap_write;
      apply Ha.
  - unfold vrestore. destruct v; cbn [vwrite]; by rewrite ?kindof_heap_write.
  - destruct v; cbn [vwrite]; by rewrite ?kindof_heap_write.
Qed.

Lemma kindof_exec_all sts h l :
  is_Some (h !! l) -> kindof (exec_all sts h) l = kindof h l.
Proof.
  revert h. induction sts as [|st sts IH]; intros h Hl; [done|].
  cbn [exec_all]. rewrite IH.
  - by apply kindof_exec.
  - apply (val_ok_exec st h (VRef l) Hl).
Qed.

Lemma not_signal_mutated h g v :
  val_ok h v -> ¬ is_signal h v -> ¬ is_signal (mutated h g) v.
Proof.
  intros Hv Hn. destruct v; try done. cbn [is_signal val_ok] in *.
  rewrite mutated_assignments. by rewrite kindof_exec_all.
Qed.

Lemma call_emit_not_signal h t c :
  ¬ is_signal h c -> call_emit c (Store h t) = Throw TypeError (Store h t).
Proof.
  unfold call_emit. destruct c; try done. cbn [is_signal st_heap].
  intros Hn. by destruct (kindof h l) as [[]|].
Qed.

Lemma db_target h g c :
  data_bound h g -> c ∈ sources -> is_object h (target h g c).
Proof. intros (_ & Ht). rewrite Forall_forall in Ht. apply Ht. Qed.

Lemma db_handle h g c :
  data_bound h g -> c ∈ sources -> is_object h (handle g c).
Proof.
  intros Hdb Hc. pose proof (db_target h g c Hdb Hc) as Ht.
  unfold sources in Hc. rewrite !elem_of_cons in Hc.
  destruct Hc as [->|[->|[->|[->|Hc]]]];
    [by apply is_object_vfield_inv in Ht..|by apply elem_of_nil in Hc].
Qed.

(** With the data bound, the callback gets as far as the notifications:
    what is left to run are lines 19 to 24, on the mutated heap. *)
Lemma reset_reaches_notifications m g h t :
  data_bound h g ->
  reset m g (Store h t) =
  ((let! c := get_prop (fluo g) "change" in call_emit c) ;;;
   (let! c := get_prop (sel g) "change" in call_emit c) ;;;
   (let! c := get_prop (xas g) "change" in call_emit c) ;;;
   (let! c := get_prop (xrf g) "change" in call_emit c) ;;;
   (let! a := new_array [VNum 0] in set_prop m (det g) "active" a) ;;;
   set_prop m (alter g) "active" (VNum 2))
    (Store (mutated h g) t).
Proof.
  intros Hdb. destruct sources_all as (Sx & Sa & Ss & Sf).
  pose proof (db_handle h g Xrf Hdb Sx) as Hxrf.
  pose proof (db_handle h g Xas Hdb Sa) as Hxas.
  pose proof (db_handle h g Sel Hdb Ss) as Hsel.
  pose proof (db_handle h g Fluo Hdb Sf) as Hfluo.
  pose proof (db_target h g Xrf Hdb Sx) as Hd2.
  pose proof (db_target h g Xas Hdb Sa) as Hd3.
  pose proof (db_target h g Sel Hdb Ss) as Hrect.
  pose proof (db_target h g Fluo Hdb Sf) as Hpeak.
  cbn [handle] in *.
  change (target h g Xrf) with (vfield h (xrf g) "data") in Hd2.
  change (target h g Xas) with (vfield h (xas g) "data") in Hd3.
  change (target h g Sel) with (vfield h (sel g) "data") in Hrect.
  change (target h g Fluo) with (vfield h (fluo g) "data") in Hpeak.
  unfold reset.
  do 4 (erewrite bind_run; [|by apply get_prop_run]).
  do 4 (erewrite bind_run; [|apply fill_run; auto 20 with store]).
  do 4 (erewrite bind_run; [|apply restore_run; auto 20 with store]).
  do 4 (erewrite bind_run; [|apply fill_run; auto 20 with store]).
  by rewrite <- (mutated_eq h g).
Qed.

Lemma observe_mutated h g c k :
  data_bound h g -> c ∈ sources ->
  observe (mutated h g) g c k = seen (rev (assignments h g)) h (target h g c) k.
Proof.
  intros Hdb Hc. destruct Hdb as [Hcl Hts].
  pose proof (db_handle h g c (conj Hcl Hts) Hc) as Hh.
  pose proof (db_target h g c (conj Hcl Hts) Hc) as Ht.
  assert (E : target (mutated h g) g c = target h g c).
  { unfold sources in Hc. rewrite !elem_of_cons in Hc.
    destruct Hc as [->|[->|[->|[->|Hc]]]];
      [..|by apply elem_of_nil in Hc];
      (change (target ?h' g ?c') with (vfield h' (handle g c') "data");
       apply vfield_mutated;
         [apply data_not_data_key|by apply val_ok_of_object]). }
  unfold observe. rewrite E, mutated_assignments.
  apply vlook_exec_all; [done|apply literal_ok_assignments|done].
Qed.

(** X13: when the data of the sources is bound, the peak overlay has
    its change signal and the selection overlay has none, the callback
    throws a TypeError on line 20: the observers of the peak overlay
    have been notified and nobody else, although the overlays are
    emptied and the current fields restored, and no widget is
    assigned. *)
Theorem reset_missing_signal m g s :
  data_bound (st_heap s) g ->
  is_signal (st_heap s) (signal (st_heap s) g Fluo) ->
  ¬ is_signal (st_heap s) (signal (st_heap s) g Sel) ->
  exists s' e, reset m g s = Throw TypeError s' ∧
    st_trace s' = st_trace s ++ [e] ∧
    ev_signal e = signal (st_heap s) g Fluo ∧ ev_heap e = st_heap s' ∧
    cleared (st_heap s') g Sel ∧ cleared (st_heap s') g Fluo ∧
    Forall (fun r => observe (st_heap s') g r.1.1 r.1.2 =
                     observe (st_heap s) g r.1.1 r.2) restores.
Proof.
  destruct s as [h t]. cbn [st_heap st_trace]. intros Hdb Hf Hs.
  destruct sources_all as (Sx & Sa & Ss & Sf).
  pose proof (db_handle h g Fluo Hdb Sf) as Hfluo.
  pose proof (db_handle h g Sel Hdb Ss) as Hsel.
  cbn [handle] in Hfluo, Hsel.
  assert (Ef : vfield (mutated h g) (fluo g) "change" = signal h g Fluo).
  { apply vfield_mutated; [apply change_not_written|].
    by apply val_ok_of_object. }
  assert (Es : vfield (mutated h g) (sel g) "change" = signal h g Sel).
  { apply vfield_mutated; [apply change_not_written|].
    by apply val_ok_of_object. }
  exists (Store (mutated h g)
                (t ++ [Event (signal h g Fluo) (mutated h g)])),
         (Event (signal h g Fluo) (mutated h g)).
  cbn [st_heap st_trace ev_signal ev_heap].
  split_and!; [|reflexivity|reflexivity|reflexivity|..].
  - rewrite reset_reaches_notifications by done.
    erewrite bind_run.
    2: { rewrite emit_run; [by rewrite Ef|by apply is_object_mutated|].
         rewrite Ef. by apply is_signal_mutated. }
    apply bind_throw. unfold bind.
    rewrite get_prop_run by by apply is_object_mutated.
    rewrite Es. apply call_emit_not_signal.
    apply not_signal_mutated; [|done].
    apply closed_vfield. by destruct Hdb.
  - unfold cleared. rewrite !observe_mutated by done.
    cbn. repeat case_decide; done.
  - unfold cleared. rewrite !observe_mutated by done.
    cbn. by rewrite !decide_True.
  - unfold restores. repeat constructor; cbn [fst snd];
      rewrite observe_mutated by done; cbn;
      rewrite decide_True by done; cbn; reflexivity.
Qed.

(** * The failing and repeated runs on the demo session *)

(** The runs above, evaluated. *)
Example demo_run_no_detector :
  match reset Sloppy demo_args_no_det demo_store with
  | Return _ _ => None
  | Throw e s' =>
      Some (e, map ev_signal (st_trace s'),
            observe (st_heap s') demo_args_no_det Sel "x",
            vfield (st_heap s') (VRef 6) "active")
  end =
  Some (TypeError, [VRef 24; VRef 23; VRef 22; VRef 21], Elems [], VNum 0).
Proof. vm_compute. reflexivity. Qed.

Example demo_run_no_data :
  match reset Strict demo_args (Store demo_heap_no_data []) with
  | Return _ _ => None
  | Throw e s' =>
      Some (e, st_trace s', observe (st_heap s') demo_args Sel "width",
            observe (st_heap s') demo_args Fluo "width")
  end = Some (TypeError, [], Elems [], Elems [VNum 3]).
Proof. vm_compute. reflexivity. Qed.

Lemma reset_undisturbing_witness :
  is_Some (st_heap demo_store !! 33%positive) ∧
  kindof (st_heap (final (reset Sloppy demo_args demo_store))) 33 =
    kindof (st_heap demo_store) 33 ∧
  forall k, k ∉ written_keys ->
    field (st_heap (final (reset Sloppy demo_args demo_store))) 33 k =
    field (st_heap demo_store) 33 k.
Proof.
  assert (Hl : is_Some (st_heap demo_store !! 33%positive)) by by_evaluation.
  split; [exact Hl|].
  exact (reset_undisturbing Sloppy demo_args demo_store 33 Hl).
Defined.

Lemma reset_unbound_source_witness :
  Fluo ∈ sources ∧ nullish (handle demo_args_no_fluo Fluo) ∧
  reset Sloppy demo_args_no_fluo demo_store = Throw TypeError demo_store.
Proof.
  assert (Hc : Fluo ∈ sources) by by_evaluation.
  assert (Hn : nullish (handle demo_args_no_fluo Fluo)) by by_evaluation.
  split_and!; [exact Hc|exact Hn|].
  exact (reset_unbound_source Sloppy demo_args_no_fluo demo_store Fluo Hc Hn).
Defined.

Lemma reset_missing_data_witness :
  closed demo_heap_no_data ∧
  Forall (fun c => is_object demo_heap_no_data (handle demo_args c))
         sources ∧
  is_object demo_heap_no_data (target demo_heap_no_data demo_args Sel) ∧
  nullish (target demo_heap_no_data demo_args Xrf) ∧
  exists s', reset Strict demo_args (Store demo_heap_no_data []) =
             Throw TypeError s' ∧
    st_trace s' = [] ∧ cleared (st_heap s') demo_args Sel ∧
    (forall k, k ∉ overlay_keys ->
       vfield (st_heap s') (target demo_heap_no_data demo_args Sel) k =
       vfield demo_heap_no_data (target demo_heap_no_data demo_args Sel) k) ∧
    (forall l, is_Some (demo_heap_no_data !! l) ->
       target demo_heap_no_data demo_args Sel ≠ VRef l ->
       st_heap s' !! l = demo_heap_no_data !! l).
Proof.
  assert (H1 : closed demo_heap_no_data) by by_evaluation.
  assert (H2 : Forall (fun c => is_object demo_heap_no_data
                                  (handle demo_args c)) sources)
    by by_evaluation.
  assert (H3 : is_object demo_heap_no_data
                 (target demo_heap_no_data demo_args Sel)) by by_evaluation.
  assert (H4 : nullish (target demo_heap_no_data demo_args Xrf))
    by by_evaluation.
  split_and!; [exact H1|exact H2|exact H3|exact H4|].
  exact (reset_missing_data Strict demo_args (Store demo_heap_no_data [])
           H1 H2 H3 H4).
Defined.

Lemma reset_unbound_detector_witness :
  sources_bound (st_heap demo_store) demo_args_no_det ∧
  nullish (det demo_args_no_det) ∧
  val_ok (st_heap demo_store) (alter demo_args_no_det) ∧
  exists s' evs,
    reset Sloppy demo_args_no_det demo_store = Throw TypeError s' ∧
    st_trace s' = st_trace demo_store ++ evs ∧
    map ev_signal evs =
      map (signal (st_heap demo_store) demo_args_no_det)
          [Fluo; Sel; Xas; Xrf] ∧
    cleared (st_heap s') demo_args_no_det Sel ∧
    cleared (st_heap s') demo_args_no_det Fluo ∧
    Forall (fun r => observe (st_heap s') demo_args_no_det r.1.1 r.1.2 =
                     observe (st_heap demo_store) demo_args_no_det r.1.1 r.2)
           restores ∧
    vfield (st_heap s') (alter demo_args_no_det) "active" =
    vfield (st_heap demo_store) (alter demo_args_no_det) "active".
Proof.
  assert (H1 : sources_bound (st_heap demo_store) demo_args_no_det)
    by by_evaluation.
  assert (H2 : nullish (det demo_args_no_det)) by by_evaluation.
  assert (H3 : val_ok (st_heap demo_store) (alter demo_args_no_det))
    by by_evaluation.
  split_and!; [exact H1|exact H2|exact H3|].
  exact (reset_unbound_detector Sloppy demo_args_no_det demo_store H1 H2 H3).
Defined.

Lemma reset_missing_baseline_witness :
  well_formed demo_heap_no_baseline demo_args ∧
  (Xrf, "proj_x", "proj_x_tot") ∈ restores ∧
  vfield demo_heap_no_baseline
         (target demo_heap_no_baseline demo_args Xrf) "proj_x_tot"
    = VUndefined ∧
  exists s', reset Sloppy demo_args (Store demo_heap_no_baseline []) =
             Return tt s' ∧
    vfield (st_heap s') (target (st_heap s') demo_args Xrf) "proj_x"
      = VUndefined ∧
    observe (st_heap s') demo_args Xrf "proj_x" = Prim VUndefined.
Proof.
  assert (H1 : well_formed demo_heap_no_baseline demo_args) by by_evaluation.
  assert (H2 : (Xrf, "proj_x", "proj_x_tot") ∈ restores) by by_evaluation.
  assert (H3 : vfield demo_heap_no_baseline
                 (target demo_heap_no_baseline demo_args Xrf) "proj_x_tot"
               = VUndefined) by by_evaluation.
  split_and!; [exact H1|exact H2|exact H3|].
  exact (reset_missing_baseline Sloppy demo_args
           (Store demo_heap_no_baseline []) Xrf "proj_x" "proj_x_tot"
           H1 H2 H3).
Defined.

Lemma reset_keeps_well_formed_witness :
  well_formed (st_heap demo_store) demo_args ∧
  exists s', reset Sloppy demo_args demo_store = Return tt s' ∧
    well_formed (st_heap s') demo_args ∧
    (forall c,
       target (st_heap s') demo_args c =
         target (st_heap demo_store) demo_args c ∧
       signal (st_heap s') demo_args c =
         signal (st_heap demo_store) demo_args c) ∧
    (own_signals (st_heap demo_store) demo_args ->
     own_signals (st_heap s') demo_args) ∧
    (widgets_apart (st_heap demo_store) demo_args ->
     widgets_apart (st_heap s') demo_args).
Proof.
  assert (Hwf : well_formed (st_heap demo_store) demo_args) by by_evaluation.
  split; [exact Hwf|].
  exact (reset_keeps_well_formed Sloppy demo_args demo_store Hwf).
Defined.


Lemma reset_one_widget_witness :
  well_formed (st_heap demo_store) demo_args_one_widget ∧
  det demo_args_one_widget = alter demo_args_one_widget ∧
  exists s', reset Sloppy demo_args_one_widget demo_store = Return tt s' ∧
    observe (st_heap s') demo_args_one_widget Det "active" = Prim (VNum 2) ∧
    vfield (st_heap s') (det demo_args_one_widget) "active" = VNum 2.
Proof.
  assert (Hwf : well_formed (st_heap demo_store) demo_args_one_widget)
    by by_evaluation.
  assert (He : det demo_args_one_widget = alter demo_args_one_widget)
    by reflexivity.
  split_and!; [exact Hwf|exact He|].
  exact (reset_one_widget Sloppy demo_args_one_widget demo_store Hwf He).
Defined.

Lemma reset_unbound_toggle_witness :
  sources_bound (st_heap demo_store) demo_args_no_alter ∧
  is_object (st_heap demo_store) (det demo_args_no_alter) ∧
  nullish (alter demo_args_no_alter) ∧
  exists s' evs,
    reset Strict demo_args_no_alter demo_store = Throw TypeError s' ∧
    st_trace s' = st_trace demo_store ++ evs ∧
    map ev_signal evs =
      map (signal (st_heap demo_store) demo_args_no_alter)
          [Fluo; Sel; Xas; Xrf] ∧
    vlook (st_heap s') (det demo_args_no_alter) "active" = Elems [VNum 0].
Proof.
  assert (H1 : sources_bound (st_heap demo_store) demo_args_no_alter)
    by by_evaluation.
  assert (H2 : is_object (st_heap demo_store) (det demo_args_no_alter))
    by by_evaluation.
  assert (H3 : nullish (alter demo_args_no_alter)) by by_evaluation.
  split_and!; [exact H1|exact H2|exact H3|].
  exact (reset_unbound_toggle Strict demo_args_no_alter demo_store H1 H2 H3).
Defined.

Lemma reset_missing_selection_data_witness :
  Forall (fun c => is_object demo_heap_no_selection (handle demo_args c))
         sources ∧
  nullish (target demo_heap_no_selection demo_args Sel) ∧
  exists s', reset Sloppy demo_args (Store demo_heap_no_selection []) =
             Throw TypeError s' ∧
    st_trace s' = [] ∧
    forall l, is_Some (demo_heap_no_selection !! l) ->
      st_heap s' !! l = demo_heap_no_selection !! l.
Proof.
  assert (H1 : Forall (fun c => is_object demo_heap_no_selection
                                  (handle demo_args c)) sources)
    by by_evaluation.
  assert (H2 : nullish (target demo_heap_no_selection demo_args Sel))
    by by_evaluation.
  split_and!; [exact H1|exact H2|].
  exact (reset_missing_selection_data Sloppy demo_args
           (Store demo_heap_no_selection []) H1 H2).
Defined.


Lemma reset_missing_signal_witness :
  data_bound demo_heap_no_signal demo_args ∧
  is_signal demo_heap_no_signal (signal demo_heap_no_signal demo_args Fluo) ∧
  ¬ is_signal demo_heap_no_signal
      (signal demo_heap_no_signal demo_args Sel) ∧
  exists s' e, reset Sloppy demo_args (Store demo_heap_no_signal []) =
               Throw TypeError s' ∧
    st_trace s' = [] ++ [e] ∧
    ev_signal e = signal demo_heap_no_signal demo_args Fluo ∧
    ev_heap e = st_heap s' ∧
    cleared (st_heap s') demo_args Sel ∧
    cleared (st_heap s') demo_args Fluo ∧
    Forall (fun r => observe (st_heap s') demo_args r.1.1 r.1.2 =
                     observe demo_heap_no_signal demo_args r.1.1 r.2)
           restores.
Proof.
  assert (H1 : data_bound demo_heap_no_signal demo_args) by by_evaluation.
  assert (H2 : is_signal demo_heap_no_signal
                 (signal demo_heap_no_signal demo_args Fluo))
    by by_evaluation.
  assert (H3 : ¬ is_signal demo_heap_no_signal
                   (signal demo_heap_no_signal demo_args Sel))
    by by_evaluation.
  split_and!; [exact H1|exact H2|exact H3|].
  exact (reset_missing_signal Sloppy demo_args (Store demo_heap_no_signal [])
           H1 H2 H3).
Defined.

(** * The widgets on the host *)

(** ** The callback and its assignments *)

Lemma reset_with_set_prop m g : reset_with (set_prop m) g = reset m g.
Proof. reflexivity. Qed.

Lemma bind_ext {A B} (c c' : js A) (f f' : A -> js B) s :
  (forall s0, c s0 = c' s0) -> (forall a s0, f a s0 = f' a s0) ->
  bind c f s = bind c' f' s.
Proof. intros Hc Hf. unfold bind. rewrite Hc. destruct (c' s); auto. Qed.

Lemma reset_with_ext put put' g s :
  (forall v k x s0, put v k x s0 = put' v k x s0) ->
  reset_with put g s = reset_with put' g s.
Proof.
  intros E. unfold reset_with. repeat (apply bind_ext; intros); auto.
Qed.

Lemma assign_plain_property H m v k x :
  reactive H v k = false -> assign H m v k x = set_prop m v k x.
Proof. intros R. unfold assign. by rewrite R. Qed.

(** On a host without models the callback is [reset]. *)
Lemma reset_on_plain_host m g s : reset_with (assign plain m) g s = reset m g s.
Proof.
  rewrite <- reset_with_set_prop. apply reset_with_ext.
  intros v k x s0. rewrite assign_plain_property; [done|]. by destruct v.
Qed.

Lemma alloc_run {B} es (f : value -> js B) h t :
  (let! a := new_array es in f a) (Store h t) =
  f (VRef (fresh (dom h))) (Store (heap_alloc (fresh (dom h)) es h) t).
Proof. reflexivity. Qed.

Lemma fill_run_on H m h t v k es :
  is_object h v -> reactive H v k = false ->
  (let! a := new_array es in assign H m v k a) (Store h t) =
  Return tt (Store (vfill v k es h) t).
Proof. intros Hv R. unfold assign. rewrite R. by apply fill_run. Qed.

Lemma restore_run_on H m h t v cur tot :
  is_object h v -> reactive H v cur = false ->
  (let! x := get_prop v tot in assign H m v cur x) (Store h t) =
  Return tt (Store (vrestore v cur tot h) t).
Proof. intros Hv R. unfold assign. rewrite R. by apply restore_run. Qed.

Lemma assign_run H m h t v k x :
  is_object h v -> k ≠ "change" ->
  (reactive H v k = true -> is_signal h (vfield h v "change")) ->
  assign H m v k x (Store h t) =
  Return tt (Store (vassign H v k x h) (t ++ vraised H v k x h)).
Proof.
  intros Hv Hk Hs. unfold assign, vassign, vraised.
  destruct (reactive H v k) eqn:R; cbn [andb].
  - erewrite bind_run; [|by apply get_prop_run].
    cbv beta. cbn [st_heap].
    change (snap h (vfield h v k)) with (vlook h v k).
    destruct (decide (vlook h v k = snap h x)) as [E|E].
    + rewrite bool_decide_eq_true_2 by exact E. cbn [negb].
      by rewrite app_nil_r.
    + rewrite bool_decide_eq_false_2 by exact E. cbn [negb].
      erewrite bind_run; [|by apply set_prop_run].
      apply emit_run; [by apply is_object_vwrite|].
      rewrite vfield_vwrite_key by done. by apply is_signal_vwrite, Hs.
  - rewrite set_prop_run by done. by rewrite app_nil_r.
Qed.

(** ** The heap an assignment on the host leaves *)

Lemma is_object_vassign H h v k x u :
  is_object h u -> is_object (vassign H v k x h) u.
Proof.
  intros Hu. unfold vassign.
  destruct (_ && _); [exact Hu|by apply is_object_vwrite].
Qed.

Lemma is_signal_vassign H h v k x u :
  is_signal h u -> is_signal (vassign H v k x h) u.
Proof.
  intros Hu. unfold vassign.
  destruct (_ && _); [exact Hu|by apply is_signal_vwrite].
Qed.

Lemma vfield_vassign_key H h v k x u k' :
  k' ≠ k -> vfield (vassign H v k x h) u k' = vfield h u k'.
Proof.
  intros Hk. unfold vassign.
  destruct (_ && _); [reflexivity|by apply vfield_vwrite_key].
Qed.

Lemma vlook_vassign_key H h v k x u k' :
  k' ≠ k -> vlook (vassign H v k x h) u k' = vlook h u k'.
Proof.
  intros Hk. unfold vassign.
  destruct (_ && _); [reflexivity|by apply vlook_vwrite_key].
Qed.

Lemma vlook_vassign_ne H h v k x u k' :
  u ≠ v -> vlook (vassign H v k x h) u k' = vlook h u k'.
Proof.
  intros Hk. unfold vassign.
  destruct (_ && _); [reflexivity|by apply vlook_vwrite_ne].
Qed.

Lemma is_signal_alloc h a es u :
  h !! a = None -> is_signal h u -> is_signal (heap_alloc a es h) u.
Proof.
  intros Ha. destruct u as [| | | | |l]; cbn [is_signal]; try done.
  unfold kindof, heap_alloc. intros Hl.
  rewrite lookup_insert_ne; [exact Hl|]. intros ->.
  rewrite Ha in Hl. discriminate.
Qed.

Lemma vlook_stranded h g u k :
  closed h -> val_ok h u ->
  vlook (stranded h g) u k = vlook (mutated h g) u k.
Proof.
  intros Hc Hu. unfold vlook. rewrite vfield_stranded by exact Hu.
  apply snap_alloc; [apply fresh_None|].
  by apply closed_vfield, closed_mutated.
Qed.

(** ** The run up to the widgets *)

(** With the sources bound and their data plain objects, the host runs
    lines 1 to 22 as the plain semantics does: what is left are the two
    assignments on the widgets. *)
Lemma reset_with_reaches_widgets H m g h t :
  sources_bound h g ->
  Forall (fun c =>
    Forall (fun k => reactive H (target h g c) k = false) data_keys)
    sources ->
  reset_with (assign H m) g (Store h t) =
  ((let! a := new_array [VNum 0] in assign H m (det g) "active" a) ;;;
   assign H m (alter g) "active" (VNum 2))
    (Store (mutated h g) (t ++ emitted h g)).
Proof.
  intros Hsb Hp. destruct sources_all as (Sx & Sa & Ss & Sf).
  pose proof (sb_handle h g Xrf Hsb Sx) as Hxrf.
  pose proof (sb_handle h g Xas Hsb Sa) as Hxas.
  pose proof (sb_handle h g Sel Hsb Ss) as Hsel.
  pose proof (sb_handle h g Fluo Hsb Sf) as Hfluo.
  pose proof (sb_target h g Xrf Hsb Sx) as Hd2.
  pose proof (sb_target h g Xas Hsb Sa) as Hd3.
  pose proof (sb_target h g Sel Hsb Ss) as Hrect.
  pose proof (sb_target h g Fluo Hsb Sf) as Hpeak.
  cbn [handle] in *.
  unfold sources, data_keys in Hp. rewrite !Forall_cons in Hp.
  destruct_and!.
  change (target h g Xrf) with (vfield h (xrf g) "data") in *.
  change (target h g Xas) with (vfield h (xas g) "data") in *.
  change (target h g Sel) with (vfield h (sel g) "data") in *.
  change (target h g Fluo) with (vfield h (fluo g) "data") in *.
  unfold reset_with.
  do 4 (erewrite bind_run; [|by apply get_prop_run]).
  do 4 (erewrite bind_run;
          [|apply fill_run_on; [auto 20 with store|assumption]]).
  do 4 (erewrite bind_run;
          [|apply restore_run_on; [auto 20 with store|assumption]]).
  do 4 (erewrite bind_run;
          [|apply fill_run_on; [auto 20 with store|assumption]]).
  rewrite <- (mutated_eq h g).
  assert (HD : forall c, c ∈ sources ->
    forall t', (let! c := get_prop (handle g c) "change" in call_emit c)
               (Store (mutated h g) t') =
    Return tt (Store (mutated h g)
                     (t' ++ [Event (signal h g c) (mutated h g)]))).
  { intros c Hc t'. pose proof (sb_handle h g c Hsb Hc) as Hh.
    assert (E : vfield (mutated h g) (handle g c) "change" = signal h g c).
    { apply vfield_mutated; [|by apply val_ok_of_object].
      apply change_not_written. }
    rewrite emit_run; [by rewrite E|by apply is_object_mutated|].
    rewrite E. by apply is_signal_mutated, sb_signal. }
  erewrite bind_run; [|exact (HD Fluo Sf _)].
  erewrite bind_run; [|exact (HD Sel Ss _)].
  erewrite bind_run; [|exact (HD Xas Sa _)].
  erewrite bind_run; [|exact (HD Xrf Sx _)].
  unfold emitted. cbn [map]. by rewrite <- !app_assoc.
Qed.

(** ** The whole run on the host *)

Lemma reset_with_runs H m g h t :
  well_formed h g -> host_fits H h g ->
  reset_with (assign H m) g (Store h t) =
  Return tt (Store (settled H h g) (t ++ emitted h g ++ host_raised H h g)).
Proof.
  intros Hwf [Hp Hw].
  pose proof (wf_target h g Det Hwf) as Hdet.
  pose proof (wf_target h g Alter Hwf) as Halt.
  change (target h g Det) with (det g) in Hdet.
  change (target h g Alter) with (alter g) in Halt.
  unfold widgets in Hw. rewrite !Forall_cons in Hw. cbn [handle] in Hw.
  destruct Hw as (HwD & HwA & _).
  rewrite reset_with_reaches_widgets
    by (by apply well_formed_sources_bound || exact Hp).
  erewrite bind_run; cycle 1.
  { rewrite alloc_run. apply assign_run.
    - by apply is_object_alloc, is_object_mutated.
    - discriminate.
    - intros R.
      rewrite vfield_alloc
        by (apply fresh_None || by apply val_ok_mutated, val_ok_of_object).
      rewrite vfield_mutated
        by (apply change_not_written || by apply val_ok_of_object).
      apply is_signal_alloc; [apply fresh_None|].
      by apply is_signal_mutated, HwD. }
  rewrite assign_run.
  - unfold settled, attended, host_raised, stranded.
    by rewrite <- !app_assoc.
  - by apply is_object_vassign, is_object_alloc, is_object_mutated.
  - discriminate.
  - intros R. rewrite vfield_vassign_key by discriminate.
    rewrite vfield_alloc
      by (apply fresh_None || by apply val_ok_mutated, val_ok_of_object).
    rewrite vfield_mutated
      by (apply change_not_written || by apply val_ok_of_object).
    apply is_signal_vassign, is_signal_alloc; [apply fresh_None|].
    by apply is_signal_mutated, HwA.
Qed.

Lemma target_widget h g c : c ∈ widgets -> target h g c = handle g c.
Proof.
  unfold widgets. rewrite !elem_of_cons.
  intros [->|[->|Hc]]; [reflexivity..|by apply elem_of_nil in Hc].
Qed.

Lemma vfield_settled_key H h g u k :
  k ≠ "active" -> val_ok h u ->
  Forall (fun c => target h g c ≠ u) sources ->
  vfield (settled H h g) u k = vfield h u k.
Proof.
  intros Hk Hu Hs. unfold settled, attended.
  rewrite !vfield_vassign_key by exact Hk.
  rewrite vfield_stranded by exact Hu.
  by apply vfield_mutated_apart.
Qed.

Lemma vlook_settled_key H h g u k :
  closed h -> k ≠ "active" -> val_ok h u ->
  Forall (fun c => target h g c ≠ u) sources ->
  vlook (settled H h g) u k = vlook h u k.
Proof.
  intros Hc Hk Hu Hs. unfold settled, attended.
  rewrite !vlook_vassign_key by exact Hk.
  rewrite vlook_stranded by assumption.
  by apply vlook_mutated_apart.
Qed.

(** The setters raise the widgets' own signals, and only where the
    value assigned does not look like the one held at entry. *)
Lemma signals_host_raised H h g :
  well_formed h g -> widgets_apart h g -> alter g ≠ det g ->
  map ev_signal (host_raised H h g) =
  raised H h g Det (Elems [VNum 0]) ++ raised H h g Alter (Prim (VNum 2)).
Proof.
  intros Hwf Hap Hne. pose proof (wf_closed _ _ Hwf) as Hcl.
  pose proof (wf_target h g Det Hwf) as Hdet.
  pose proof (wf_target h g Alter Hwf) as Halt.
  change (target h g Det) with (det g) in Hdet.
  change (target h g Alter) with (alter g) in Halt.
  assert (Had : Forall (fun c => target h g c ≠ det g) sources).
  { eapply Forall_impl; [exact Hap|]. by intros c [? _]. }
  assert (Haa : Forall (fun c => target h g c ≠ alter g) sources).
  { eapply Forall_impl; [exact Hap|]. by intros c [_ ?]. }
  assert (D1 : vlook (stranded h g) (det g) "active" =
               vlook h (det g) "active").
  { rewrite vlook_stranded by (exact Hcl || by apply val_ok_of_object).
    apply vlook_mutated_apart; [exact Hcl|by apply val_ok_of_object|exact Had]. }
  assert (D2 : snap (stranded h g) (VRef (fresh (dom (mutated h g)))) =
               Elems [VNum 0]).
  { unfold stranded. apply snap_alloc_new. }
  assert (A1 : vlook (attended H h g) (alter g) "active" =
               vlook h (alter g) "active").
  { unfold attended. rewrite vlook_vassign_ne by exact Hne.
    rewrite vlook_stranded by (exact Hcl || by apply val_ok_of_object).
    apply vlook_mutated_apart; [exact Hcl|by apply val_ok_of_object|exact Haa]. }
  assert (SD : forall x h', h' = stranded h g ->
    vfield (vwrite (det g) "active" x h') (det g) "change" = signal h g Det).
  { intros x h' ->. rewrite vfield_vwrite_key by discriminate.
    rewrite vfield_stranded by by apply val_ok_of_object.
    apply vfield_mutated; [apply change_not_written|by apply val_ok_of_object]. }
  assert (SA : forall x h', h' = attended H h g ->
    vfield (vwrite (alter g) "active" x h') (alter g) "change" =
    signal h g Alter).
  { intros x h' ->. rewrite vfield_vwrite_key by discriminate.
    unfold attended. rewrite vfield_vassign_key by discriminate.
    rewrite vfield_stranded by by apply val_ok_of_object.
    apply vfield_mutated; [apply change_not_written|by apply val_ok_of_object]. }
  unfold host_raised. rewrite map_app. f_equal.
  - unfold vraised, raised, observe. cbn [handle].
    change (target h g Det) with (det g). rewrite D1, D2.
    destruct (reactive H (det g) "active"); cbn [andb]; [|reflexivity].
    destruct (bool_decide _); cbn [negb map ev_signal]; [reflexivity|].
    f_equal. by apply SD.
  - unfold vraised, raised, observe. cbn [handle].
    change (target h g Alter) with (alter g). rewrite A1.
    change (snap (attended H h g) (VNum 2)) with (Prim (VNum 2)).
    destruct (reactive H (alter g) "active"); cbn [andb]; [|reflexivity].
    destruct (bool_decide _); cbn [negb map ev_signal]; [reflexivity|].
    f_equal. by apply SA.
Qed.

Lemma received_signals h g c evs :
  received h g c evs =
  length (filter (fun x => x = signal h g c) (map ev_signal evs)).
Proof.
  unfold received. induction evs as [|e evs IH]; [reflexivity|].
  cbn [map]. rewrite !filter_cons.
  destruct (decide (ev_signal e = signal h g c)); cbn [length];
    by rewrite IH.
Qed.

(** C10, as amended: reset itself calls [emit] on the four containers
    only and assigns nothing on the widgets but [active]; the
    assignments of lines 23 and 24 run the host's setters, so that in
    every invocation the notifications are the four container ones, in
    order, followed by one on the detector widget exactly when [active]
    is a reactive property of it that did not already hold [[0]], and
    one on the toggle widget exactly when [active] is a reactive
    property of it that did not already hold [2].  Each widget receives
    that many notifications and no more, and every field of a widget
    other than [active] is left as it was.  Every party has its own
    change signal, the widgets are objects of their own, and the host
    fits the callback. *)
Theorem reset_widgets_notified_by_host H m g s :
  well_formed (st_heap s) g -> own_signals (st_heap s) g ->
  widgets_apart (st_heap s) g -> host_fits H (st_heap s) g ->
  exists s' evs, reset_with (assign H m) g s = Return tt s' ∧
    st_trace s' = st_trace s ++ evs ∧
    map ev_signal evs =
      map (signal (st_heap s) g) [Fluo; Sel; Xas; Xrf] ++
      raised H (st_heap s) g Det (Elems [VNum 0]) ++
      raised H (st_heap s) g Alter (Prim (VNum 2)) ∧
    received (st_heap s) g Det evs =
      length (raised H (st_heap s) g Det (Elems [VNum 0])) ∧
    received (st_heap s) g Alter evs =
      length (raised H (st_heap s) g Alter (Prim (VNum 2))) ∧
    forall c k, c ∈ widgets -> k ≠ "active" ->
      untouched (st_heap s) (st_heap s') g c k.
Proof.
  destruct s as [h t]. cbn [st_heap st_trace]. intros Hwf Ho Hap Hfit.
  pose proof (wf_closed _ _ Hwf) as Hcl.
  pose proof (fun a b => own_signals_ne h g a b Ho) as Hne.
  assert (Hda : alter g ≠ det g).
  { intros E. apply (Hne Alter Det); [discriminate|].
    unfold signal. cbn [handle]. by rewrite E. }
  assert (S : map ev_signal (emitted h g ++ host_raised H h g) =
    map (signal h g) [Fluo; Sel; Xas; Xrf] ++
    raised H h g Det (Elems [VNum 0]) ++
    raised H h g Alter (Prim (VNum 2))).
  { rewrite map_app, signals_host_raised by assumption. reflexivity. }
  exists (Store (settled H h g) (t ++ emitted h g ++ host_raised H h g)),
         (emitted h g ++ host_raised H h g).
  split; [by apply reset_with_runs|]. cbn [st_heap st_trace].
  split_and!; [reflexivity|exact S|..].
  - rewrite received_signals, S. unfold raised. cbn [map app].
    destruct (_ && _), (_ && _); cbn [app length];
      rewrite !filter_cons, filter_nil;
      repeat case_decide; try done; clash Hne.
  - rewrite received_signals, S. unfold raised. cbn [map app].
    destruct (_ && _), (_ && _); cbn [app length];
      rewrite !filter_cons, filter_nil;
      repeat case_decide; try done; clash Hne.
  - intros c k Hc Hk. pose proof (wf_target _ g c Hwf) as Hobj.
    assert (Hs : Forall (fun c' => target h g c' ≠ handle g c) sources).
    { eapply Forall_impl; [exact Hap|]. intros c' [Hd Ha].
      unfold widgets in Hc. rewrite !elem_of_cons in Hc.
      destruct Hc as [->|[->|Hc]]; [done..|]. by apply elem_of_nil in Hc. }
    unfold untouched, observe. rewrite !target_widget by exact Hc.
    rewrite target_widget in Hobj by exact Hc.
    split.
    + apply vfield_settled_key; [exact Hk|by apply val_ok_of_object|exact Hs].
    + apply vlook_settled_key;
        [exact Hcl|exact Hk|by apply val_ok_of_object|exact Hs].
Qed.

(** The demo session on its host: both widgets hold another [active]
    than the reset one, and each is notified after the four sources. *)
Example demo_run_host_trace :
  match reset_with (assign demo_host Strict) demo_args demo_store with
  | Return _ s' => map ev_signal (st_trace s')
  | Throw _ _ => []
  end = [VRef 24; VRef 23; VRef 22; VRef 21; VRef 25; VRef 26].
Proof. vm_compute. reflexivity. Qed.

(** A second run finds the widgets reset already and notifies the four
    sources only. *)
Example demo_run_host_again :
  match (reset_with (assign demo_host Strict) demo_args ;;;
         reset_with (assign demo_host Strict) demo_args) demo_store with
  | Return _ s' => map ev_signal (st_trace s')
  | Throw _ _ => []
  end = [VRef 24; VRef 23; VRef 22; VRef 21; VRef 25; VRef 26;
         VRef 24; VRef 23; VRef 22; VRef 21].
Proof. vm_compute. reflexivity. Qed.

(** C10, refuted as stated: in the demo session, where the widgets are
    models of the host, the invocation returns with six notifications,
    the fifth on the detector widget and the sixth on the toggle
    widget; so it is not the case that neither widget is notified. *)
Lemma reset_widgets_not_silent :
  (exists s' evs,
     reset_with (assign demo_host Sloppy) demo_args demo_store =
       Return tt s' ∧
     st_trace s' = st_trace demo_store ++ evs ∧
     map ev_signal evs =
       [VRef 24; VRef 23; VRef 22; VRef 21; VRef 25; VRef 26] ∧
     received (st_heap demo_store) demo_args Det evs = 1 ∧
     received (st_heap demo_store) demo_args Alter evs = 1) ∧
  ¬ (exists s' evs,
       reset_with (assign demo_host Sloppy) demo_args demo_store =
         Return tt s' ∧
       st_trace s' = st_trace demo_store ++ evs ∧
       received (st_heap demo_store) demo_args Det evs = 0 ∧
       received (st_heap demo_store) demo_args Alter evs = 0).
Proof.
  assert (Hwf : well_formed demo_heap demo_args) by by_evaluation.
  assert (Hf : host_fits demo_host demo_heap demo_args) by by_evaluation.
  pose proof (reset_with_runs demo_host Sloppy demo_args demo_heap [] Hwf Hf)
    as E.
  change (Store demo_heap []) with demo_store in E.
  assert (S : map ev_signal (emitted demo_heap demo_args ++
                             host_raised demo_host demo_heap demo_args) =
              [VRef 24; VRef 23; VRef 22; VRef 21; VRef 25; VRef 26])
    by (vm_compute; reflexivity).
  assert (RD : received demo_heap demo_args Det
                 (emitted demo_heap demo_args ++
                  host_raised demo_host demo_heap demo_args) = 1)
    by (vm_compute; reflexivity).
  assert (RA : received demo_heap demo_args Alter
                 (emitted demo_heap demo_args ++
                  host_raised demo_host demo_heap demo_args) = 1)
    by (vm_compute; reflexivity).
  split.
  - exists (Store (settled demo_host demo_heap demo_args)
             ([] ++ emitted demo_heap demo_args ++
              host_raised demo_host demo_heap demo_args)),
      (emitted demo_heap demo_args ++
       host_raised demo_host demo_heap demo_args).
    split; [exact E|]. split; [exact eq_refl|].
    split; [exact S|]. split; [exact RD|exact RA].
  - intros (s' & evs & Hrun & Htr & HD & _).
    rewrite E in Hrun. injection Hrun as <-.
    assert (Hevs : emitted demo_heap demo_args ++
                   host_raised demo_host demo_heap demo_args = evs)
      by exact Htr.
    rewrite <- Hevs in HD.
    change (st_heap demo_store) with demo_heap in HD.
    rewrite RD in HD. discriminate HD.
Qed.

Lemma reset_widgets_notified_by_host_witness :
  well_formed (st_heap demo_store) demo_args ∧
  own_signals (st_heap demo_store) demo_args ∧
  widgets_apart (st_heap demo_store) demo_args ∧
  host_fits demo_host (st_heap demo_store) demo_args ∧
  exists s' evs,
    reset_with (assign demo_host Sloppy) demo_args demo_store =
      Return tt s' ∧
    st_trace s' = st_trace demo_store ++ evs ∧
    map ev_signal evs =
      map (signal (st_heap demo_store) demo_args) [Fluo; Sel; Xas; Xrf] ++
      raised demo_host (st_heap demo_store) demo_args Det (Elems [VNum 0]) ++
      raised demo_host (st_heap demo_store) demo_args Alter (Prim (VNum 2)) ∧
    received (st_heap demo_store) demo_args Det evs =
      length (raised demo_host (st_heap demo_store) demo_args Det
                (Elems [VNum 0])) ∧
    received (st_heap demo_store) demo_args Alter evs =
      length (raised demo_host (st_heap demo_store) demo_args Alter
                (Prim (VNum 2))) ∧
    forall c k, c ∈ widgets -> k ≠ "active" ->
      untouched (st_heap demo_store) (st_heap s') demo_args c k.
Proof.
  assert (Hwf : well_formed (st_heap demo_store) demo_args) by by_evaluation.
  assert (Ho : own_signals (st_heap demo_store) demo_args) by by_evaluation.
  assert (Ha : widgets_apart (st_heap demo_store) demo_args)
    by by_evaluation.
  assert (Hf : host_fits demo_host (st_heap demo_store) demo_args)
    by by_evaluation.
  split_and!; [exact Hwf|exact Ho|exact Ha|exact Hf|].
  exact (reset_widgets_notified_by_host demo_host Sloppy demo_args demo_store
           Hwf Ho Ha Hf).
Defined.
